(** * Mapty: the workout records, their store and its persistence

    A shallow embedding of [script.js].  JavaScript values are an inductive
    type, numbers are IEEE 754 doubles (the kernel's primitive floats),
    objects are association lists in property order together with their
    prototype, and the methods of [App] are state transformers over a record
    that holds the private fields of the application next to the part of the
    host (local storage, the list in the document, the Leaflet map) that the
    script reads and writes.  An exception leaves the state as it was when
    it was raised: nothing is rolled back.

    The file has the model first ([Host], [JS], [Workout], [World], [App]),
    then the lemmas on objects, digits, serialization and on each operation,
    and last the ten properties of the specification, C1 to C10, each with
    the inputs it is tried on. *)

From Stdlib Require Import ZArith NArith String Ascii PrimFloat Floats Lia.
From stdpp Require Import base ssreflect list strings.

Open Scope string_scope.
Open Scope list_scope.

(** ** Strings and numbers of the host *)

Module Host.

(** The decimal digit [d] (below ten) as a character. *)
Definition digit (d : N) : ascii := ascii_of_N (48 + d).

(** The decimal digits of [n], least significant first. *)
Fixpoint digits_lsd (fuel : nat) (n : N) : list ascii :=
  match fuel with
  | O => []
  | S f =>
      digit (n mod 10)
        :: (if (n / 10 =? 0)%N then [] else digits_lsd f (n / 10)%N)
  end.

(** [Number::toString] on a non-negative integer: what [n + ''] and a
    template literal give for it. *)
Definition decimal (n : N) : string :=
  string_of_list_ascii (rev (digits_lsd (S (N.size_nat n)) n)).

(** [s.slice(start)]: a negative [start] counts from the end. *)
Definition slice (start : Z) (s : string) : string :=
  let l := list_ascii_of_string s in
  let len := Z.of_nat (length l) in
  let k := if (start <? 0)%Z then Z.max (len + start) 0 else Z.min start len in
  string_of_list_ascii (drop (Z.to_nat k) l).

(** [c.toUpperCase()] on one character (the letters a to z; other characters
    of the ASCII range are left as they are). *)
Definition toUpperCase (c : ascii) : ascii :=
  let n := nat_of_ascii c in
  if (97 <=? n)%nat && (n <=? 122)%nat then ascii_of_nat (n - 32) else c.

(** [Number.isFinite] on a number. *)
Definition isFinite (x : float) : bool :=
  negb (PrimFloat.is_nan x) && negb (PrimFloat.is_infinity x).

(** A [Date] object, by what the script and [JSON.stringify] observe of it:
    the month (0 to 11) and the day of the month in local time, the
    instant, and the ISO text that [toJSON] gives. *)
Record Date := mkDate {
  getTime : Z;
  getMonth : nat;
  getDate : nat;
  toISOString : string
}.

(** The two readings of the clock that the field initialisers of [Workout]
    take: [new Date()] and [Date.now()] (milliseconds, an integer). *)
Record Clock := mkClock {
  new_Date : Date;
  Date_now : N
}.

End Host.
Export Host.

(** ** Values *)

Module JS.

(** The prototype an object was created with.  [Running.prototype] has
    [calcPace], [Cycling.prototype] has [calcSpeed], both inherit
    [_setDescription] from [Workout.prototype]; an object literal or an
    object made by [JSON.parse] has [Object.prototype]. *)
Inductive proto := ObjectProto | RunningProto | CyclingProto.

#[local] Set Warnings "-register-all".

Inductive value :=
| VUndefined
| VNull
| VBool (b : bool)
| VNum (x : float)
| VStr (s : string)
| VDate (d : Date)
| VMarker (h : nat)          (* a Leaflet marker, a live object of the map *)
| VArr (xs : list value)
| VObj (p : proto) (fs : list (string * value)).

(** An [Error] object, by its [name] and [message]; the messages are worded
    as V8 words them. *)
Record Error := mkError { name : string; message : string }.

Definition TypeError (m : string) : Error := mkError "TypeError" m.
Definition SyntaxError (m : string) : Error := mkError "SyntaxError" m.

(** How an evaluation ends.  [Unmodelled] marks behaviour of the host that
    this development does not describe (number formatting, Leaflet on
    arguments that are not coordinates). *)
Inductive outcome (A : Type) : Type :=
| Ret (a : A)
| Throw (e : Error)
| Unmodelled.
Arguments Ret {A} a.
Arguments Throw {A} e.
Arguments Unmodelled {A}.

Definition obind {A B} (m : outcome A) (k : A -> outcome B) : outcome B :=
  match m with
  | Ret a => k a
  | Throw e => Throw e
  | Unmodelled => Unmodelled
  end.

Notation "'let*' x := m 'in' k" := (obind m (fun x => k))
  (at level 10, x name, m at level 100, k at level 200, only parsing).
Notation "'let*' ' p := m 'in' k" := (obind m (fun x => let 'p := x in k))
  (at level 10, p pattern, m at level 100, k at level 200, only parsing).

(** *** Properties of objects *)

Fixpoint lookup_prop (k : string) (fs : list (string * value)) : option value :=
  match fs with
  | [] => None
  | (k', v) :: r => if String.eqb k k' then Some v else lookup_prop k r
  end.

(** Assignment keeps the place of a property that exists and adds a new one
    at the end. *)
Fixpoint assign_prop (k : string) (v : value) (fs : list (string * value))
  : list (string * value) :=
  match fs with
  | [] => [(k, v)]
  | (k', v') :: r =>
      if String.eqb k k' then (k, v) :: r else (k', v') :: assign_prop k v r
  end.

(** [o.k] for the property names the script uses.  Reading a property of
    [undefined] or [null] throws; values that are not plain objects have none
    of these properties. *)
Definition get (o : value) (k : string) : outcome value :=
  match o with
  | VUndefined =>
      Throw (TypeError ("Cannot read properties of undefined (reading '" +:+ k +:+ "')"))
  | VNull =>
      Throw (TypeError ("Cannot read properties of null (reading '" +:+ k +:+ "')"))
  | VObj _ fs => Ret (default VUndefined (lookup_prop k fs))
  | _ => Ret VUndefined
  end.

(** [o.k = v] in strict mode. *)
Definition set (o : value) (k : string) (v : value) : outcome value :=
  match o with
  | VObj p fs => Ret (VObj p (assign_prop k v fs))
  | VUndefined =>
      Throw (TypeError ("Cannot set properties of undefined (setting '" +:+ k +:+ "')"))
  | VNull =>
      Throw (TypeError ("Cannot set properties of null (setting '" +:+ k +:+ "')"))
  | VDate _ | VMarker _ | VArr _ => Unmodelled
  | _ => Throw (TypeError ("Cannot create property '" +:+ k +:+ "'"))
  end.

(** [a === b] where [b] is a string. *)
Definition strict_equals_string (a : value) (s : string) : bool :=
  match a with
  | VStr t => String.eqb t s
  | _ => false
  end.

(** [!v] is [negb (truthy v)]. *)
Definition truthy (v : value) : bool :=
  match v with
  | VUndefined | VNull => false
  | VBool b => b
  | VNum x => negb (PrimFloat.is_nan x || PrimFloat.eqb x 0)
  | VStr s => negb (String.eqb s "")
  | _ => true
  end.

(** [ToNumber], where it needs no parsing. *)
Definition ToNumber (v : value) : outcome float :=
  match v with
  | VNum x => Ret x
  | VUndefined => Ret nan
  | VNull => Ret 0%float
  | VBool b => Ret (if b then 1%float else 0%float)
  | _ => Unmodelled
  end.

(** [ToString] as a template literal applies it, where it needs no number
    formatting. *)
Definition ToString (v : value) : outcome string :=
  match v with
  | VStr s => Ret s
  | VUndefined => Ret "undefined"
  | VNull => Ret "null"
  | VBool b => Ret (if b then "true" else "false")
  | _ => Unmodelled
  end.

(** [a / b] *)
Definition divide (a b : value) : outcome value :=
  let* x := ToNumber a in
  let* y := ToNumber b in
  Ret (VNum (x / y)%float).

(** *** JSON *)

Inductive json :=
| JNull
| JBool (b : bool)
| JNum (x : float)
| JStr (s : string)
| JArr (js : list json)
| JObj (fs : list (string * json)).

(** A string held by local storage, as [JSON.parse] sees it: the text of a
    JSON value, given by that value, or a text outside the grammar of JSON
    (the empty string, a truncated text, the word [undefined]). *)
Inductive text :=
| Json (j : json)
| Malformed (raw : string).

(** The number that the JSON text of a finite [x] denotes: the same number,
    except that minus zero is written [0]. *)
Definition json_number (x : float) : float :=
  if PrimFloat.eqb x 0 then 0%float else x.

(** [SerializeJSONProperty]: [Ret None] is [undefined] (the property is left
    out of an object and written [null] in an array).  A number that is not
    finite is written [null], a [Date] gives its [toJSON] text, and a Leaflet
    marker, which refers to the map that refers back to it, raises the
    [TypeError] for a circular structure. *)
Fixpoint serialize (v : value) : outcome (option json) :=
  match v with
  | VUndefined => Ret None
  | VNull => Ret (Some JNull)
  | VBool b => Ret (Some (JBool b))
  | VNum x => Ret (Some (if isFinite x then JNum (json_number x) else JNull))
  | VStr s => Ret (Some (JStr s))
  | VDate d => Ret (Some (JStr (toISOString d)))
  | VMarker _ => Throw (TypeError "Converting circular structure to JSON")
  | VArr xs =>
      let* js := (fix elements (xs : list value) : outcome (list json) :=
               match xs with
               | [] => Ret []
               | x :: r =>
                   let* j := serialize x in
                   let* js := elements r in
                   Ret (default JNull j :: js)
               end) xs in
      Ret (Some (JArr js))
  | VObj _ fs =>
      let* js := (fix properties (fs : list (string * value))
               : outcome (list (string * json)) :=
               match fs with
               | [] => Ret []
               | (k, x) :: r =>
                   let* j := serialize x in
                   let* js := properties r in
                   Ret (match j with Some j => (k, j) :: js | None => js end)
               end) fs in
      Ret (Some (JObj js))
  end.

(** [JSON.stringify(v)]; [None] is [undefined]. *)
Definition JSON_stringify (v : value) : outcome (option text) :=
  let* j := serialize v in
  Ret (option_map Json j).

(** The value a JSON text denotes: objects are plain objects. *)
Fixpoint revive (j : json) : value :=
  match j with
  | JNull => VNull
  | JBool b => VBool b
  | JNum x => VNum x
  | JStr s => VStr s
  | JArr js => VArr (map revive js)
  | JObj fs =>
      VObj ObjectProto
        ((fix properties (fs : list (string * json)) (acc : list (string * value)) :=
            match fs with
            | [] => acc
            | (k, x) :: r => properties r (assign_prop k (revive x) acc)
            end) fs [])
  end.

(** [JSON.parse(s)] for a string [s]; the wording of the message is the
    engine's. *)
Definition JSON_parse (s : text) : outcome value :=
  match s with
  | Json j => Ret (revive j)
  | Malformed _ => Throw (SyntaxError "not valid JSON")
  end.

(** *** Methods and their lookup *)

(** Whether a method is found along the prototype chain. *)
Definition has_method (p : proto) (m : string) : bool :=
  match p with
  | RunningProto => String.eqb m "calcPace" || String.eqb m "_setDescription"
  | CyclingProto => String.eqb m "calcSpeed" || String.eqb m "_setDescription"
  | ObjectProto => false
  end.

End JS.
Export JS.

(** ** The classes [Workout], [Running] and [Cycling] *)

Module Workout.

Definition months : list string :=
  ["January"; "February"; "March"; "April"; "May"; "June"; "July"; "August";
   "September"; "October"; "November"; "December"].

(** The field initialisers and the constructor of [Workout]; [p] is the
    prototype of the object under construction. *)
Definition Workout (p : proto) (clk : Clock) (coords distance duration : value)
  : value :=
  VObj p
    [("date", VDate (new_Date clk));
     ("id", VStr (slice (-10) (decimal (Date_now clk) +:+ "")));
     ("marker", VUndefined);
     ("coords", coords);
     ("distance", distance);
     ("duration", duration)].

(** [this._setDescription()]; the result is [this] after the call. *)
Definition _setDescription (this : value) : outcome value :=
  let* type := get this "type" in
  let* first := match type with
           | VStr (String c _) => Ret (String (toUpperCase c) "")
           | VArr _ | VObj _ _ => Unmodelled
           | VUndefined | VNull =>
               Throw (TypeError "Cannot read properties of undefined (reading '0')")
           | _ =>
               Throw (TypeError "Cannot read properties of undefined (reading 'toUpperCase')")
           end in
  let* rest := match type with
          | VStr s => Ret (slice 1 s)
          | _ => Unmodelled
          end in
  let* date := get this "date" in
  match date with
  | VDate d =>
      let month := default "undefined" (months !! getMonth d) in
      let day := decimal (N.of_nat (getDate d)) in
      set this "description"
        (VStr (first +:+ rest +:+ " on " +:+ month +:+ " " +:+ day))
  | VUndefined | VNull =>
      Throw (TypeError "Cannot read properties of undefined (reading 'getMonth')")
  | _ => Throw (TypeError "this.date.getMonth is not a function")
  end.

(** [this.calcPace()]: the receiver after the call and the value returned. *)
Definition calcPace (this : value) : outcome (value * value) :=
  let* duration := get this "duration" in
  let* distance := get this "distance" in
  let* pace := divide duration distance in
  let* this := set this "pace" pace in
  let* pace := get this "pace" in
  Ret (this, pace).

(** [this.calcSpeed()]: the receiver after the call and the value returned. *)
Definition calcSpeed (this : value) : outcome (value * value) :=
  let* distance := get this "distance" in
  let* duration := get this "duration" in
  let* hours := divide duration (VNum 60) in
  let* speed := divide distance hours in
  let* this := set this "speed" speed in
  let* speed := get this "speed" in
  Ret (this, speed).

(** [new Running(coords, distance, duration, cadence)] *)
Definition Running (clk : Clock) (coords distance duration cadence : value)
  : outcome value :=
  let this := Workout RunningProto clk coords distance duration in
  let* this := set this "type" (VStr "running") in
  let* this := set this "cadence" cadence in
  let* '(this, _) := calcPace this in
  _setDescription this.

(** [new Cycling(coords, distance, duration, elevationGain)] *)
Definition Cycling (clk : Clock) (coords distance duration elevationGain : value)
  : outcome value :=
  let this := Workout CyclingProto clk coords distance duration in
  let* this := set this "type" (VStr "cycling") in
  let* this := set this "elevationGain" elevationGain in
  let* '(this, _) := calcSpeed this in
  _setDescription this.

(** [o.m()] for the methods of the classes: the receiver after the call and
    the value returned.  An object that does not inherit [m] has no such
    function to call. *)
Definition invoke (o : value) (m : string) : outcome (value * value) :=
  match o with
  | VObj p _ =>
      if has_method p m then
        if String.eqb m "calcPace" then calcPace o
        else if String.eqb m "calcSpeed" then calcSpeed o
        else let* this := _setDescription o in Ret (this, VUndefined)
      else Throw (TypeError (m +:+ " is not a function"))
  | VUndefined | VNull =>
      Throw (TypeError ("Cannot read properties of undefined (reading '" +:+ m +:+ "')"))
  | _ => Throw (TypeError (m +:+ " is not a function"))
  end.

End Workout.
Export Workout.

(** ** The host: the form, the list, the map and local storage *)

Module World.

(** The text of an input field, by the number that unary plus makes of it. *)
Inductive field_text :=
| Empty                     (* the empty string: [+''] is 0 *)
| Typed (x : float).        (* any other text; [x] may be [NaN] *)

Definition unary_plus (t : field_text) : float :=
  match t with
  | Empty => 0%float
  | Typed x => x
  end.

Record Form := mkForm {
  inputType : string;
  inputDistance : field_text;
  inputDuration : field_text;
  inputCadence : field_text;
  inputElevation : field_text
}.

(** What a template literal shows of a value: the value itself, or a number
    rounded by [toFixed(1)]. *)
Inductive cell :=
| Shown (v : value)
| Fixed1 (x : float).

(** A list entry [<li class="workout" data-id=...>]. *)
Record Li := mkLi {
  li_node : nat;               (* which element of the document it is *)
  li_type : value;
  dataset_id : string;
  li_title : value;
  li_cells : list cell;
  delete_listener : bool       (* its Delete button calls [_removeWorkout] *)
}.

(** A marker on the map, with the popup bound to it. *)
Record Layer := mkLayer {
  layer_marker : nat;
  layer_latlng : float * float;
  popup_className : option string;
  popup_content : option (bool * string)   (* the icon is the runner; the text *)
}.

(** The Leaflet map. *)
Record LMap := mkLMap {
  view_center : float * float;
  view_zoom : Z;
  layers : list Layer;
  click_listener : bool
}.

(** The private fields of [App] and the part of the host it acts on. *)
Record State := mkState {
  app_map : option LMap;                 (* [#map], [undefined] at first *)
  app_mapEvent : option (float * float); (* the [latlng] of [#mapEvent] *)
  app_workouts : value;                  (* [#workouts] *)
  localStorage_workouts : option text;   (* the item ['workouts'] *)
  form : Form;
  form_hidden : bool;
  entries : list Li;                     (* the list, in document order *)
  alerts : list string;
  listeners : bool;                      (* submit, change and click are attached *)
  position_requested : bool;
  fresh : nat                            (* the next new host object *)
}.

(** A computation of the script: it ends in an [outcome] and leaves a state;
    what was done before an exception stays done. *)
Definition M (A : Type) : Type := State -> outcome A * State.

Definition ret {A} (a : A) : M A := fun s => (Ret a, s).
Definition throw {A} (e : Error) : M A := fun s => (Throw e, s).
Definition lift {A} (o : outcome A) : M A := fun s => (o, s).

Definition bind {A B} (m : M A) (k : A -> M B) : M B :=
  fun s =>
    match m s with
    | (Ret a, s') => k a s'
    | (Throw e, s') => (Throw e, s')
    | (Unmodelled, s') => (Unmodelled, s')
    end.

Definition read {A} (f : State -> A) : M A := fun s => (Ret (f s), s).
Definition update (f : State -> State) : M unit := fun s => (Ret tt, f s).

Notation "'let!' x := m 'in' k" := (bind m (fun x => k))
  (at level 10, x name, m at level 100, k at level 200, only parsing).
Notation "'let!' ' p := m 'in' k" := (bind m (fun x => let 'p := x in k))
  (at level 10, p pattern, m at level 100, k at level 200, only parsing).

(** [for (x of xs) body(x)], as [forEach] runs it. *)
Fixpoint forEach {A} (xs : list A) (body : A -> M unit) : M unit :=
  match xs with
  | [] => ret tt
  | x :: r => let! _ := body x in forEach r body
  end.

Definition set_map (m : option LMap) (s : State) : State :=
  mkState m (app_mapEvent s) (app_workouts s) (localStorage_workouts s)
    (form s) (form_hidden s) (entries s) (alerts s) (listeners s)
    (position_requested s) (fresh s).
Definition set_mapEvent (e : option (float * float)) (s : State) : State :=
  mkState (app_map s) e (app_workouts s) (localStorage_workouts s)
    (form s) (form_hidden s) (entries s) (alerts s) (listeners s)
    (position_requested s) (fresh s).
Definition set_workouts (w : value) (s : State) : State :=
  mkState (app_map s) (app_mapEvent s) w (localStorage_workouts s)
    (form s) (form_hidden s) (entries s) (alerts s) (listeners s)
    (position_requested s) (fresh s).
Definition set_localStorage (t : option text) (s : State) : State :=
  mkState (app_map s) (app_mapEvent s) (app_workouts s) t
    (form s) (form_hidden s) (entries s) (alerts s) (listeners s)
    (position_requested s) (fresh s).
Definition set_form (f : Form) (s : State) : State :=
  mkState (app_map s) (app_mapEvent s) (app_workouts s) (localStorage_workouts s)
    f (form_hidden s) (entries s) (alerts s) (listeners s)
    (position_requested s) (fresh s).
Definition set_form_hidden (b : bool) (s : State) : State :=
  mkState (app_map s) (app_mapEvent s) (app_workouts s) (localStorage_workouts s)
    (form s) b (entries s) (alerts s) (listeners s)
    (position_requested s) (fresh s).
Definition set_entries (l : list Li) (s : State) : State :=
  mkState (app_map s) (app_mapEvent s) (app_workouts s) (localStorage_workouts s)
    (form s) (form_hidden s) l (alerts s) (listeners s)
    (position_requested s) (fresh s).
Definition set_alerts (l : list string) (s : State) : State :=
  mkState (app_map s) (app_mapEvent s) (app_workouts s) (localStorage_workouts s)
    (form s) (form_hidden s) (entries s) l (listeners s)
    (position_requested s) (fresh s).
Definition set_listeners (b : bool) (s : State) : State :=
  mkState (app_map s) (app_mapEvent s) (app_workouts s) (localStorage_workouts s)
    (form s) (form_hidden s) (entries s) (alerts s) b
    (position_requested s) (fresh s).
Definition set_position_requested (b : bool) (s : State) : State :=
  mkState (app_map s) (app_mapEvent s) (app_workouts s) (localStorage_workouts s)
    (form s) (form_hidden s) (entries s) (alerts s) (listeners s)
    b (fresh s).
Definition set_fresh (n : nat) (s : State) : State :=
  mkState (app_map s) (app_mapEvent s) (app_workouts s) (localStorage_workouts s)
    (form s) (form_hidden s) (entries s) (alerts s) (listeners s)
    (position_requested s) n.

(** [alert(msg)] *)
Definition alert (msg : string) : M unit :=
  update (fun s => set_alerts (alerts s ++ [msg]) s).

(** A new host object. *)
Definition new_object : M nat :=
  fun s => (Ret (fresh s), set_fresh (S (fresh s)) s).

(** [#workouts] as the array that [push], [find] and [forEach] need. *)
Definition workouts_array (method : string) : M (list value) :=
  let! ws := read app_workouts in
  match ws with
  | VArr l => ret l
  | _ => throw (TypeError ("this.#workouts." +:+ method +:+ " is not a function"))
  end.

(** [L.marker(coords)]: a new marker.  Leaflet is described for a pair of
    numbers; it rejects [NaN] with an error of its own. *)
Definition L_marker (coords : value) : M (nat * (float * float)) :=
  match coords with
  | VArr [VNum lat; VNum lng] =>
      if PrimFloat.is_nan lat || PrimFloat.is_nan lng then lift Unmodelled
      else
        let! h := new_object in
        ret (h, (lat, lng))
  | _ => lift Unmodelled
  end.

Definition set_layers (f : list Layer -> list Layer) (s : State) : State :=
  match app_map s with
  | Some lm =>
      set_map (Some (mkLMap (view_center lm) (view_zoom lm) (f (layers lm))
                       (click_listener lm))) s
  | None => s
  end.

(** [marker.addTo(this.#map)], which calls [map.addLayer(marker)]. *)
Definition addTo (marker : nat * (float * float)) : M unit :=
  let! m := read app_map in
  match m with
  | None =>
      throw (TypeError "Cannot read properties of undefined (reading 'addLayer')")
  | Some _ =>
      update (set_layers (fun ls => ls ++ [mkLayer marker.1 marker.2 None None]))
  end.

Definition on_layer (h : nat) (f : Layer -> Layer) : M unit :=
  update (set_layers (map (fun l => if decide (layer_marker l = h) then f l else l))).

(** [marker.bindPopup(L.popup({..., className}))] *)
Definition bindPopup (h : nat) (className : string) : M unit :=
  on_layer h (fun l =>
    mkLayer (layer_marker l) (layer_latlng l) (Some className) (popup_content l)).

(** [marker.setPopupContent(content)] and [openPopup()] *)
Definition setPopupContent (h : nat) (running : bool) (description : string)
  : M unit :=
  on_layer h (fun l =>
    mkLayer (layer_marker l) (layer_latlng l) (popup_className l)
      (Some (running, description))).

(** [marker.remove()] for the value held in the [marker] property. *)
Definition marker_remove (marker : value) : M unit :=
  match marker with
  | VMarker h =>
      update (fun s =>
        set_layers (filter (fun l => layer_marker l ≠ h)) s)
  | VUndefined =>
      throw (TypeError "Cannot read properties of undefined (reading 'remove')")
  | VNull =>
      throw (TypeError "Cannot read properties of null (reading 'remove')")
  | _ => throw (TypeError "workout.marker.remove is not a function")
  end.

(** [x.toFixed(1)] *)
Definition toFixed1 (v : value) : outcome cell :=
  match v with
  | VNum x => Ret (Fixed1 x)
  | VUndefined | VNull =>
      Throw (TypeError "Cannot read properties of undefined (reading 'toFixed')")
  | _ => Throw (TypeError "toFixed is not a function")
  end.

End World.
Export World.

(** ** The application *)

Module App.

(** A record held in [#workouts] is referred to by its index: the script
    keeps no other reference to it between two events. *)
Definition workout_at (i : nat) : M value :=
  let! ws := read app_workouts in
  match ws with
  | VArr l => ret (default VUndefined (l !! i))
  | _ => ret VUndefined
  end.

Definition store_at (i : nat) (w : value) : M unit :=
  update (fun s =>
    match app_workouts s with
    | VArr l => set_workouts (VArr (<[i := w]> l)) s
    | _ => s
    end).

(** [this.#workouts.push(workout)] *)
Definition push (workout : value) : M unit :=
  let! ws := workouts_array "push" in
  update (set_workouts (VArr (ws ++ [workout]))).

Definition array_length (v : value) : nat :=
  match v with
  | VArr l => length l
  | _ => 0
  end.

Definition _setLocalStorage : M unit :=
  let! ws := read app_workouts in
  let! blob := lift (JSON_stringify ws) in
  update (set_localStorage (Some (default (Malformed "undefined") blob))).

Definition _showForm (latlng : float * float) : M unit :=
  let! _ := update (set_mapEvent (Some latlng)) in
  update (set_form_hidden false).

Definition _hideForm : M unit :=
  let! _ := update (fun s =>
              set_form (mkForm (inputType (form s)) Empty Empty Empty Empty) s) in
  update (set_form_hidden true).

(** [_renderWorkoutMarker(workout)], [workout] being the record at index [i]. *)
Definition _renderWorkoutMarker (i : nat) : M unit :=
  let! workout := workout_at i in
  let! coords := lift (get workout "coords") in
  let! marker := L_marker coords in
  let! _ := addTo marker in
  let! type := lift (get workout "type") in
  let! className := lift (ToString type) in
  let! _ := bindPopup marker.1 (className +:+ "-popup") in
  let! type := lift (get workout "type") in
  let! description := lift (get workout "description") in
  let! content := lift (ToString description) in
  let! _ := setPopupContent marker.1 (strict_equals_string type "running") content in
  let! workout := lift (set workout "marker" (VMarker marker.1)) in
  store_at i workout.

(** [_renderWorkout(workout)] *)
Definition _renderWorkout (workout : value) : M unit :=
  let! type := lift (get workout "type") in
  let! id := lift (get workout "id") in
  let! dataset := lift (ToString id) in
  let! description := lift (get workout "description") in
  let! distance := lift (get workout "distance") in
  let! duration := lift (get workout "duration") in
  let! running :=
    (if strict_equals_string type "running" then
       let! pace := lift (get workout "pace") in
       let! shown := lift (toFixed1 pace) in
       let! cadence := lift (get workout "cadence") in
       ret [shown; Shown cadence]
     else ret []) in
  let! cycling :=
    (if strict_equals_string type "cycling" then
       let! speed := lift (get workout "speed") in
       let! shown := lift (toFixed1 speed) in
       let! elevationGain := lift (get workout "elevationGain") in
       ret [shown; Shown elevationGain]
     else ret []) in
  let! node := new_object in
  let li := mkLi node type dataset description
              ([Shown distance; Shown duration] ++ running ++ cycling) false in
  (* form.insertAdjacentHTML('afterend', html) *)
  let! _ := update (fun s => set_entries (li :: entries s) s) in
  (* the first Delete button of the list gets the handler *)
  update (fun s =>
    match entries s with
    | first :: rest =>
        set_entries
          (mkLi (li_node first) (li_type first) (dataset_id first)
             (li_title first) (li_cells first) true :: rest) s
    | [] => s
    end).

Definition validInputs (inputs : list float) : bool :=
  forallb isFinite inputs.

Definition isPositiveInputs (inputs : list float) : bool :=
  forallb (fun input => PrimFloat.ltb 0 input) inputs.

Definition invalid_message : string := "Inputs have to be a positive number!".

(** [_newWorkout(e)]; [clk] is what the clock reads when a record is built. *)
Definition _newWorkout (clk : Clock) : M unit :=
  let! f := read form in
  let type := inputType f in
  let distance := unary_plus (inputDistance f) in
  let duration := unary_plus (inputDuration f) in
  let! mapEvent := read app_mapEvent in
  let! '(lat, lng) :=
    match mapEvent with
    | Some latlng => ret latlng
    | None =>
        throw (TypeError "Cannot read properties of undefined (reading 'latlng')")
    end in
  let coords := VArr [VNum lat; VNum lng] in
  let running (k : value -> M unit) : M unit :=
    if String.eqb type "running" then
      let cadence := unary_plus (inputCadence f) in
      if negb (validInputs [distance; duration; cadence])
         || negb (isPositiveInputs [distance; duration; cadence])
      then alert invalid_message
      else
        let! workout :=
          lift (Running clk coords (VNum distance) (VNum duration) (VNum cadence)) in
        k workout
    else k VUndefined in
  let cycling (workout : value) (k : value -> M unit) : M unit :=
    if String.eqb type "cycling" then
      let elevationGain := unary_plus (inputElevation f) in
      if negb (validInputs [distance; duration; elevationGain])
         || negb (isPositiveInputs [distance; duration])
      then alert invalid_message
      else
        let! workout :=
          lift (Cycling clk coords (VNum distance) (VNum duration)
                  (VNum elevationGain)) in
        k workout
    else k workout in
  running (fun workout =>
  cycling workout (fun workout =>
    let! _ := push workout in
    let! i := read (fun s => pred (array_length (app_workouts s))) in
    let! _ := _renderWorkoutMarker i in
    let! workout := workout_at i in
    let! _ := _renderWorkout workout in
    let! _ := _hideForm in
    _setLocalStorage)).

(** [this.#workouts.find(w => w.id === id)], with the index it stops at:
    [indexOf] of the record found is that index, as the record is the first
    of the array with this identity. *)
Fixpoint find_id (id : string) (i : nat) (ws : list value)
  : outcome (option (nat * value)) :=
  match ws with
  | [] => Ret None
  | w :: r =>
      let* wid := get w "id" in
      if strict_equals_string wid id then Ret (Some (i, w))
      else find_id id (S i) r
  end.

Definition _findWorkout (el : Li) : M (option (nat * value)) :=
  let! ws := workouts_array "find" in
  lift (find_id (dataset_id el) 0 ws).

(** [_removeWorkout(e)]; [workoutEl] is [e.target.closest('.workout')]. *)
Definition _removeWorkout (workoutEl : option Li) : M unit :=
  match workoutEl with
  | None => alert "Some error! Cannot find an item"
  | Some el =>
      let! found := _findWorkout el in
      match found with
      | None => ret tt
      | Some (index, workout) =>
          let! ws := workouts_array "splice" in
          let! _ := update (set_workouts (VArr (delete index ws))) in
          let! _ := update (fun s =>
                      set_entries
                        (filter (fun li => li_node li ≠ li_node el) (entries s)) s) in
          let! marker := lift (get workout "marker") in
          let! _ := marker_remove marker in
          _setLocalStorage
      end
  end.


Definition _getLocalStorage : M unit :=
  let! item := read localStorage_workouts in
  let! workoutData :=
    lift (match item with
          | Some s => JSON_parse s
          | None => Ret VNull          (* [JSON.parse(null)] *)
          end) in
  if negb (truthy workoutData) then ret tt
  else
    let! _ := update (set_workouts workoutData) in
    let! ws := workouts_array "forEach" in
    forEach ws _renderWorkout.

Definition mapZoomLevel : Z := 13.

(** [_loadMap(position)] *)
Definition _loadMap (position : float * float) : M unit :=
  let! _ := update (set_map (Some (mkLMap position mapZoomLevel [] true))) in
  let! ws := workouts_array "forEach" in
  forEach (seq 0 (length ws)) _renderWorkoutMarker.

(** [_getPosition()]; [geolocation] tells whether the browser has it. *)
Definition _getPosition (geolocation : bool) : M unit :=
  if geolocation then update (set_position_requested true) else ret tt.

(** [new App()] *)
Definition constructor (geolocation : bool) : M unit :=
  let! _ := _getPosition geolocation in
  let! _ := _getLocalStorage in
  update (set_listeners true).

(** [reset()], once the user has confirmed: the page is loaded again. *)
Definition reset : M unit :=
  update (set_localStorage None).

(** The page as it is loaded, with what local storage holds. *)
Definition page (stored : option text) : State :=
  mkState None None (VArr []) stored (mkForm "running" Empty Empty Empty Empty)
    true [] [] false false 0.

(** Loading the page runs the script. *)
Definition load (stored : option text) (geolocation : bool) : outcome unit * State :=
  constructor geolocation (page stored).

End App.
Export App.

(** * Properties *)

(** ** Objects *)

Lemma lookup_prop_cons k k' v r :
  lookup_prop k ((k', v) :: r)
  = if String.eqb k k' then Some v else lookup_prop k r.
Proof. reflexivity. Qed.

Lemma lookup_assign_eq k v fs : lookup_prop k (assign_prop k v fs) = Some v.
Proof.
  induction fs as [|[k' v'] r IH]; simpl.
  - by rw String.eqb_refl.
  - destruct (String.eqb k k') eqn:E; simpl; rw ?String.eqb_refl ?E //.
Qed.

Lemma lookup_assign_ne k k' v fs :
  k' ≠ k -> lookup_prop k' (assign_prop k v fs) = lookup_prop k' fs.
Proof.
  intros Hne. induction fs as [|[k0 v0] r IH]; simpl.
  - destruct (String.eqb_spec k' k); done.
  - destruct (String.eqb_spec k k0) as [->|Hk]; simpl.
    + destruct (String.eqb_spec k' k0); done.
    + destruct (String.eqb_spec k' k0); done.
Qed.

Lemma assign_lookup_same k v fs :
  lookup_prop k fs = Some v -> assign_prop k v fs = fs.
Proof.
  induction fs as [|[k' v'] r IH]; simpl; first done.
  destruct (String.eqb_spec k k') as [->|Hk]; intros H.
  - by inversion H.
  - by rw IH.
Qed.

Lemma get_set_ne r k v w k' :
  set r k v = Ret w -> k' ≠ k -> get w k' = get r k'.
Proof.
  destruct r; try done. simpl. intros [= <-] Hne. simpl.
  by rw lookup_assign_ne.
Qed.

(** The property [k] of an object, [undefined] when it has none. *)
Definition field (k : string) (fs : list (string * value)) : value :=
  default VUndefined (lookup_prop k fs).

(** ** Decimal digits *)

(** The [k] lowest decimal digits of [n], least significant first. *)
Fixpoint low_digits (k : nat) (n : N) : list ascii :=
  match k with
  | O => []
  | S k => digit (n mod 10) :: low_digits k (n / 10)
  end.

Lemma digit_inj a b : (a < 10)%N -> (b < 10)%N -> digit a = digit b -> a = b.
Proof.
  intros Ha Hb H. unfold digit in H.
  apply (f_equal N_of_ascii) in H.
  rw !N_ascii_embedding in H; lia.
Qed.

Lemma length_low_digits k n : length (low_digits k n) = k.
Proof. revert n. induction k as [|k IH]; intros n; simpl; [done | by rw IH]. Qed.

Lemma low_digits_mod k a b :
  low_digits k a = low_digits k b <-> (a mod 10 ^ N.of_nat k = b mod 10 ^ N.of_nat k)%N.
Proof.
  revert a b. induction k as [|k IH]; intros a b.
  - simpl. rw !N.mod_1_r. done.
  - rw Nat2N.inj_succ N.pow_succ_r'. rw !N.Div0.mod_mul_r. simpl. split.
    + intros H. injection H as H1 H2. apply digit_inj in H1.
      * apply IH in H2. by rw H1 H2.
      * apply N.mod_lt; lia.
      * apply N.mod_lt; lia.
    + intros H.
      assert (a mod 10 < 10)%N as Ha by (apply N.mod_lt; lia).
      assert (b mod 10 < 10)%N as Hb by (apply N.mod_lt; lia).
      rw (proj2 (IH (a / 10) (b / 10))%N).
      * f_equal. f_equal. revert H Ha Hb.
        generalize (a mod 10)%N, (b mod 10)%N,
          ((a / 10) mod 10 ^ N.of_nat k)%N, ((b / 10) mod 10 ^ N.of_nat k)%N.
        intros; lia.
      * revert H Ha Hb.
        generalize (a mod 10)%N, (b mod 10)%N,
          ((a / 10) mod 10 ^ N.of_nat k)%N, ((b / 10) mod 10 ^ N.of_nat k)%N.
        intros; lia.
Qed.

Lemma take_digits_lsd k : forall f n,
  k <= f -> (10 ^ N.of_nat (pred k) <= n)%N ->
  take k (digits_lsd f n) = low_digits k n.
Proof.
  induction k as [|k IH]; intros f n Hf Hn; first done.
  destruct f as [|f]; first lia. simpl.
  f_equal. destruct k as [|k]; first by rw take_0.
  simpl in Hn. rw Nat2N.inj_succ N.pow_succ_r' in Hn.
  assert (10 ^ N.of_nat k <= n / 10)%N as Hq.
  { apply N.div_le_lower_bound; lia. }
  assert (0 < 10 ^ N.of_nat k)%N by (apply N.neq_0_lt_0, N.pow_nonzero; lia).
  destruct (N.eqb_spec (n / 10) 0) as [E|E]; first lia.
  apply IH; [lia | done].
Qed.

Lemma pos_lt_pow2_size p : (N.pos p < 2 ^ N.of_nat (Pos.size_nat p))%N.
Proof.
  induction p as [p IH|p IH|]; simpl Pos.size_nat;
    rw ?Nat2N.inj_succ ?N.pow_succ_r'; lia.
Qed.

Lemma size_nat_lower n : (2 ^ 9 <= n)%N -> 9 <= N.size_nat n.
Proof.
  intros H. destruct n as [|p]; first by (simpl in H; lia).
  simpl. pose proof (pos_lt_pow2_size p) as Hp.
  destruct (decide (9 <= Pos.size_nat p)) as [|Hlt]; first done.
  assert (2 ^ N.of_nat (Pos.size_nat p) <= 2 ^ 8)%N.
  { apply N.pow_le_mono_r; lia. }
  simpl in *. lia.
Qed.

Lemma append_empty_r s : s +:+ "" = s.
Proof.
  induction s as [|a s IH]; first done.
  change (String a (s +:+ "") = String a s). by rw IH.
Qed.

Lemma string_of_list_ascii_inj l1 l2 :
  string_of_list_ascii l1 = string_of_list_ascii l2 -> l1 = l2.
Proof.
  intros H. apply (f_equal list_ascii_of_string) in H.
  by rw !list_ascii_of_string_of_list_ascii in H.
Qed.

Lemma mod_window (a b : N) :
  (a < b)%N -> (b - a < 10 ^ 10)%N -> (a mod 10 ^ 10 ≠ b mod 10 ^ 10)%N.
Proof.
  change (10 ^ 10)%N with 10000000000%N. intros Hlt Hwin Heq.
  pose proof (N.div_mod a 10000000000) as Ha.
  pose proof (N.div_mod b 10000000000) as Hb.
  lia.
Qed.

(** ** The records the constructors build *)

Definition new_id (clk : Clock) : string :=
  slice (-10) (decimal (Date_now clk) +:+ "").

(** The label the constructors compute, written out. *)
Definition label (kind : string) (date : Date) : string :=
  kind +:+ " on " +:+ default "undefined" (months !! getMonth date)
    +:+ " " +:+ decimal (N.of_nat (getDate date)).

Lemma Running_eq clk coords d t c :
  Running clk coords (VNum d) (VNum t) (VNum c)
  = Ret (VObj RunningProto
      [("date", VDate (new_Date clk)); ("id", VStr (new_id clk));
       ("marker", VUndefined); ("coords", coords);
       ("distance", VNum d); ("duration", VNum t);
       ("type", VStr "running"); ("cadence", VNum c);
       ("pace", VNum (t / d));
       ("description", VStr (label "Running" (new_Date clk)))]).
Proof. reflexivity. Qed.

Lemma Cycling_eq clk coords d t e :
  Cycling clk coords (VNum d) (VNum t) (VNum e)
  = Ret (VObj CyclingProto
      [("date", VDate (new_Date clk)); ("id", VStr (new_id clk));
       ("marker", VUndefined); ("coords", coords);
       ("distance", VNum d); ("duration", VNum t);
       ("type", VStr "cycling"); ("elevationGain", VNum e);
       ("speed", VNum (d / (t / 60)));
       ("description", VStr (label "Cycling" (new_Date clk)))]).
Proof. reflexivity. Qed.

(** A record as a constructor builds it, before any marker is placed. *)
Inductive creation :=
| NewRunning (clk : Clock) (lat lng distance duration cadence : float)
| NewCycling (clk : Clock) (lat lng distance duration elevationGain : float).

Definition built (c : creation) : value :=
  match c with
  | NewRunning clk lat lng d t x =>
      VObj RunningProto
        [("date", VDate (new_Date clk)); ("id", VStr (new_id clk));
         ("marker", VUndefined); ("coords", VArr [VNum lat; VNum lng]);
         ("distance", VNum d); ("duration", VNum t);
         ("type", VStr "running"); ("cadence", VNum x);
         ("pace", VNum (t / d));
         ("description", VStr (label "Running" (new_Date clk)))]
  | NewCycling clk lat lng d t x =>
      VObj CyclingProto
        [("date", VDate (new_Date clk)); ("id", VStr (new_id clk));
         ("marker", VUndefined); ("coords", VArr [VNum lat; VNum lng]);
         ("distance", VNum d); ("duration", VNum t);
         ("type", VStr "cycling"); ("elevationGain", VNum x);
         ("speed", VNum (d / (t / 60)));
         ("description", VStr (label "Cycling" (new_Date clk)))]
  end.

Lemma built_running clk lat lng d t x :
  Running clk (VArr [VNum lat; VNum lng]) (VNum d) (VNum t) (VNum x)
  = Ret (built (NewRunning clk lat lng d t x)).
Proof. reflexivity. Qed.

Lemma built_cycling clk lat lng d t x :
  Cycling clk (VArr [VNum lat; VNum lng]) (VNum d) (VNum t) (VNum x)
  = Ret (built (NewCycling clk lat lng d t x)).
Proof. reflexivity. Qed.

(** From 1970-01-12 on, the clock has at least ten digits, and the
    identifier is the last ten of them. *)
Lemma new_id_digits clk :
  (10 ^ 9 <= Date_now clk)%N ->
  new_id clk = string_of_list_ascii (rev (low_digits 10 (Date_now clk))).
Proof.
  intros H. unfold new_id, decimal, slice.
  set (ds := digits_lsd _ _).
  assert (take 10 ds = low_digits 10 (Date_now clk)) as Htake.
  { apply take_digits_lsd; last done.
    pose proof (size_nat_lower (Date_now clk)). simpl in *. lia. }
  assert (10 <= length ds) as Hlen.
  { apply (f_equal length) in Htake.
    rw length_take length_low_digits in Htake. lia. }
  rw append_empty_r.
  rw list_ascii_of_string_of_list_ascii. rw length_rev.
  f_equal.
  replace (Z.to_nat _) with (length ds - 10).
  - rw skipn_rev. f_equal. rw -Htake. f_equal. lia.
  - assert ((-10 <? 0)%Z = true) as -> by done. lia.
Qed.

Lemma new_id_eq_iff clk1 clk2 :
  (10 ^ 9 <= Date_now clk1)%N -> (10 ^ 9 <= Date_now clk2)%N ->
  new_id clk1 = new_id clk2
  <-> (Date_now clk1 mod 10 ^ 10 = Date_now clk2 mod 10 ^ 10)%N.
Proof.
  intros H1 H2. rw !new_id_digits //. rw -(low_digits_mod 10). split.
  - intros H. apply string_of_list_ascii_inj in H.
    apply (f_equal (@rev ascii)) in H. by rw !rev_involutive in H.
  - by intros ->.
Qed.

(** ** Serialization

    Induction on values goes through the elements of an array and the
    properties of an object. *)

Lemma value_induction (P : value -> Prop) :
  P VUndefined -> P VNull -> (forall b, P (VBool b)) -> (forall x, P (VNum x)) ->
  (forall s, P (VStr s)) -> (forall d, P (VDate d)) -> (forall h, P (VMarker h)) ->
  (forall xs, Forall P xs -> P (VArr xs)) ->
  (forall p fs, Forall (fun kv => P kv.2) fs -> P (VObj p fs)) ->
  forall v, P v.
Proof.
  intros Hu Hn Hb Hx Hs Hd Hm Ha Ho.
  fix IH 1. intros [| |b|x|s|d|h|xs|p fs];
    [apply Hu | apply Hn | apply Hb | apply Hx | apply Hs | apply Hd | apply Hm | | ].
  - apply Ha. induction xs as [|x xs IHxs]; constructor; [apply IH | apply IHxs].
  - apply Ho. induction fs as [|[k x] fs IHfs]; constructor; [apply IH | apply IHfs].
Qed.

(** The error [JSON.stringify] raises on a Leaflet marker. *)
Definition circular : Error := TypeError "Converting circular structure to JSON".

Definition serialize_elements := (fix elements (xs : list value) : outcome (list json) :=
               match xs with
               | [] => Ret []
               | x :: r =>
                   let* j := serialize x in
                   let* js := elements r in
                   Ret (default JNull j :: js)
               end).
Definition serialize_properties := (fix properties (fs : list (string * value))
               : outcome (list (string * json)) :=
               match fs with
               | [] => Ret []
               | (k, x) :: r =>
                   let* j := serialize x in
                   let* js := properties r in
                   Ret (match j with Some j => (k, j) :: js | None => js end)
               end).
Lemma serialize_arr xs : serialize (VArr xs) = let* js := serialize_elements xs in Ret (Some (JArr js)).
Proof. reflexivity. Qed.
Lemma serialize_obj p fs : serialize (VObj p fs) = let* js := serialize_properties fs in Ret (Some (JObj js)).
Proof. reflexivity. Qed.

Lemma serialize_properties_cons k x r :
  serialize_properties ((k, x) :: r)
  = let* j := serialize x in
    let* js := serialize_properties r in
    Ret (match j with Some j => (k, j) :: js | None => js end).
Proof. reflexivity. Qed.

Lemma serialize_elements_cons x r :
  serialize_elements (x :: r)
  = let* j := serialize x in
    let* js := serialize_elements r in
    Ret (default JNull j :: js).
Proof. reflexivity. Qed.

Lemma serialize_total v :
  (exists j, serialize v = Ret j) \/ serialize v = Throw circular.
Proof.
  induction v as [| | | | | | |xs IH|p fs IH] using value_induction;
    try (left; eexists; reflexivity); try (by right).
  - rw serialize_arr.
    assert ((exists js, serialize_elements xs = Ret js)
            \/ serialize_elements xs = Throw circular) as [[js ->]| ->].
    { induction IH as [|x xs Hx _ IHxs]; first by left; eexists.
      simpl. destruct Hx as [[j ->]| ->]; last by right.
      simpl. destruct IHxs as [[js ->]| ->]; [left; by eexists | by right]. }
    + left; by eexists.
    + by right.
  - rw serialize_obj.
    assert ((exists js, serialize_properties fs = Ret js)
            \/ serialize_properties fs = Throw circular) as [[js ->]| ->].
    { induction IH as [|[k x] fs Hx _ IHfs]; first by left; eexists.
      simpl in *. destruct Hx as [[j ->]| ->]; last by right.
      simpl. destruct IHfs as [[js ->]| ->]; [left; by eexists | by right]. }
    + left; by eexists.
    + by right.
Qed.

Lemma serialize_properties_marker fs h :
  lookup_prop "marker" fs = Some (VMarker h) ->
  serialize_properties fs = Throw circular.
Proof.
  induction fs as [|[k x] r IH]; first done.
  rw lookup_prop_cons serialize_properties_cons.
  destruct (String.eqb_spec "marker" k) as [<-|Hk].
  - by intros [= ->].
  - intros H. destruct (serialize_total x) as [[j ->]| ->]; last done.
    by rw /= IH.
Qed.

Lemma serialize_elements_throws ws w :
  w ∈ ws -> serialize w = Throw circular ->
  serialize_elements ws = Throw circular.
Proof.
  intros Hin Hw. induction Hin as [w ws|w x ws _ IH];
    rw serialize_elements_cons.
  - by rw Hw.
  - destruct (serialize_total x) as [[j ->]| ->]; last done.
    by rw /= IH.
Qed.

(** A store that holds a record with a marker has no JSON text. *)
Lemma stringify_store_with_marker ws p fs h :
  VObj p fs ∈ ws ->
  lookup_prop "marker" fs = Some (VMarker h) ->
  JSON_stringify (VArr ws) = Throw circular.
Proof.
  intros Hin Hm. unfold JSON_stringify. rw serialize_arr.
  rw (serialize_elements_throws ws (VObj p fs)) //.
  rw serialize_obj. by rw (serialize_properties_marker fs h).
Qed.

(** ** Numbers and records in JSON *)

Definition finite_positive (x : float) : bool :=
  isFinite x && PrimFloat.ltb 0 x.

(** What comes back for the number [x] after [JSON.stringify] and
    [JSON.parse]. *)
Definition renum (x : float) : value :=
  if isFinite x then VNum (json_number x) else VNull.

Lemma positive_not_zero x : PrimFloat.ltb 0 x = true -> PrimFloat.eqb x 0 = false.
Proof.
  rw FloatAxioms.ltb_spec FloatAxioms.eqb_spec.
  replace (Prim2SF 0) with (S754_zero false) by reflexivity.
  destruct (Prim2SF x) as [[]|[]| |[] m e]; cbn; try done.
Qed.

Lemma renum_finite_positive x : finite_positive x = true -> renum x = VNum x.
Proof.
  unfold finite_positive, renum, json_number.
  intros [-> Hpos]%andb_prop. by rw positive_not_zero.
Qed.

(** The JSON number for [x], [null] when [x] is not finite. *)
Definition jnum (x : float) : json :=
  if isFinite x then JNum (json_number x) else JNull.

(** The text a record is saved as. *)
Definition saved (c : creation) : json :=
  match c with
  | NewRunning clk lat lng d t x =>
      JObj
        [("date", JStr (toISOString (new_Date clk))); ("id", JStr (new_id clk));
         ("coords", JArr [jnum lat; jnum lng]);
         ("distance", jnum d); ("duration", jnum t);
         ("type", JStr "running"); ("cadence", jnum x);
         ("pace", jnum (t / d));
         ("description", JStr (label "Running" (new_Date clk)))]
  | NewCycling clk lat lng d t x =>
      JObj
        [("date", JStr (toISOString (new_Date clk))); ("id", JStr (new_id clk));
         ("coords", JArr [jnum lat; jnum lng]);
         ("distance", jnum d); ("duration", jnum t);
         ("type", JStr "cycling"); ("elevationGain", jnum x);
         ("speed", jnum (d / (t / 60)));
         ("description", JStr (label "Cycling" (new_Date clk)))]
  end.

(** The object that comes back for it. *)
Definition reloaded (c : creation) : value :=
  match c with
  | NewRunning clk lat lng d t x =>
      VObj ObjectProto
        [("date", VStr (toISOString (new_Date clk))); ("id", VStr (new_id clk));
         ("coords", VArr [renum lat; renum lng]);
         ("distance", renum d); ("duration", renum t);
         ("type", VStr "running"); ("cadence", renum x);
         ("pace", renum (t / d));
         ("description", VStr (label "Running" (new_Date clk)))]
  | NewCycling clk lat lng d t x =>
      VObj ObjectProto
        [("date", VStr (toISOString (new_Date clk))); ("id", VStr (new_id clk));
         ("coords", VArr [renum lat; renum lng]);
         ("distance", renum d); ("duration", renum t);
         ("type", VStr "cycling"); ("elevationGain", renum x);
         ("speed", renum (d / (t / 60)));
         ("description", VStr (label "Cycling" (new_Date clk)))]
  end.

Lemma serialize_built c : serialize (built c) = Ret (Some (saved c)).
Proof. by destruct c. Qed.

Lemma revive_jnum x : revive (jnum x) = renum x.
Proof. unfold jnum, renum. by destruct (isFinite x). Qed.

Lemma revive_saved c : revive (saved c) = reloaded c.
Proof. destruct c; simpl; by rw !revive_jnum. Qed.

Lemma serialize_elements_built cs :
  serialize_elements (built <$> cs) = Ret (saved <$> cs).
Proof.
  induction cs as [|c cs IH]; first done.
  rw fmap_cons serialize_elements_cons serialize_built /= IH //.
Qed.

Lemma stringify_built cs :
  JSON_stringify (VArr (built <$> cs)) = Ret (Some (Json (JArr (saved <$> cs)))).
Proof.
  unfold JSON_stringify. by rw serialize_arr serialize_elements_built.
Qed.

Lemma parse_saved cs :
  JSON_parse (Json (JArr (saved <$> cs))) = Ret (VArr (reloaded <$> cs)).
Proof.
  simpl. do 2 f_equal. induction cs as [|c cs IH]; first done.
  by rw !fmap_cons /= -IH revive_saved.
Qed.

Lemma reloaded_numbers c k x :
  get (built c) k = Ret (VNum x) -> get (reloaded c) k = Ret (renum x).
Proof.
  destruct c; simpl;
    repeat (destruct (String.eqb k _); [try done; by intros [= ->] |]); done.
Qed.

Lemma reloaded_invoke c m :
  invoke (reloaded c) m = Throw (TypeError (m +:+ " is not a function")).
Proof. by destruct c. Qed.

(** ** Reasoning on computations

    [preserves f m] says that [m] leaves the part [f] of the state as it
    was, however it ends; [wp] is what must hold before a computation for a
    property to hold after it. *)

Definition preserves {A B} (f : State -> B) (m : M A) : Prop :=
  forall s, f (m s).2 = f s.

Section Preserves.
Context {B : Type} (f : State -> B).

Lemma preserves_ret {A} (a : A) : preserves f (ret a).
Proof. by intros s. Qed.
Lemma preserves_throw {A} e : preserves f (@throw A e).
Proof. by intros s. Qed.
Lemma preserves_lift {A} (o : outcome A) : preserves f (lift o).
Proof. by intros s. Qed.
Lemma preserves_read {A} (g : State -> A) : preserves f (read g).
Proof. by intros s. Qed.
Lemma preserves_update g : (forall s, f (g s) = f s) -> preserves f (update g).
Proof. intros H s. apply H. Qed.
Lemma preserves_bind {A C} (m : M A) (k : A -> M C) :
  preserves f m -> (forall a, preserves f (k a)) -> preserves f (bind m k).
Proof.
  intros Hm Hk s. unfold bind. specialize (Hm s).
  destruct (m s) as [[a|e|] s']; simpl in *; try done.
  by rw Hk.
Qed.
Lemma preserves_forEach {A} (xs : list A) body :
  (forall x, preserves f (body x)) -> preserves f (forEach xs body).
Proof.
  intros H. induction xs as [|x xs IH]; simpl.
  - apply preserves_ret.
  - apply preserves_bind; [apply H | by intros _].
Qed.
End Preserves.

Ltac frame_step :=
  first
    [ apply preserves_ret | apply preserves_throw | apply preserves_lift
    | apply preserves_read
    | apply preserves_bind; [| intros ?]
    | apply preserves_forEach; intros ?
    | apply preserves_update; intros ?; (reflexivity || (unfold set_layers; case_match; reflexivity))
    | case_match ].
Ltac frame := repeat frame_step.

Lemma bind_eq {A C} (m : M A) (k : A -> M C) s a s1 :
  m s = (Ret a, s1) -> bind m k s = k a s1.
Proof. intros H. unfold bind. by rw H. Qed.

Lemma bind_tail {A B C} (f : State -> B) (m : M A) (k : A -> M C) s :
  (forall a, preserves f (k a)) -> f (bind m k s).2 = f (m s).2.
Proof.
  intros Hk. unfold bind. destruct (m s) as [[a|e|] s']; simpl; try done.
  apply Hk.
Qed.

Definition wp {A} (m : M A) (s : State) (Q : outcome A -> State -> Prop) : Prop :=
  Q (m s).1 (m s).2.

Lemma wp_bind {A C} (m : M A) (k : A -> M C) s Q :
  wp m s (fun o s' =>
    match o with
    | Ret a => wp (k a) s' Q
    | Throw e => Q (Throw e) s'
    | Unmodelled => Q Unmodelled s'
    end) ->
  wp (bind m k) s Q.
Proof. unfold wp, bind. by destruct (m s) as [[a|e|] s']. Qed.

Lemma wp_lift {A} (o : outcome A) s (Q : outcome A -> State -> Prop) :
  Q o s -> wp (lift o) s Q.
Proof. done. Qed.

Lemma wp_update g s (Q : outcome unit -> State -> Prop) :
  Q (Ret tt) (g s) -> wp (update g) s Q.
Proof. done. Qed.

Lemma wp_preserved {A B} (f : State -> B) (m : M A) s (Q : outcome A -> State -> Prop) :
  preserves f m -> (forall o s', f s' = f s -> Q o s') -> wp m s Q.
Proof. intros Hm HQ. apply HQ, Hm. Qed.

(** ** The operations, one by one *)

Lemma workouts_array_frame {B} (f : State -> B) m : preserves f (workouts_array m).
Proof. unfold workouts_array. frame. Qed.
Lemma workout_at_frame {B} (f : State -> B) i : preserves f (workout_at i).
Proof. unfold workout_at. frame. Qed.

(** The record at index [i], [undefined] when there is none. *)
Definition element (i : nat) (ws : value) : value :=
  default VUndefined match ws with VArr l => l !! i | _ => None end.

Lemma workout_at_eq i s : workout_at i s = (Ret (element i (app_workouts s)), s).
Proof. unfold workout_at, element, bind, read, ret. by destruct (app_workouts s). Qed.

Lemma renderWorkout_workouts w : preserves app_workouts (_renderWorkout w).
Proof. unfold _renderWorkout, new_object. frame. Qed.
Lemma renderWorkout_alerts w : preserves alerts (_renderWorkout w).
Proof. unfold _renderWorkout, new_object. frame. Qed.

Lemma hideForm_frame {B} (f : State -> B) :
  (forall s x, f (set_form x s) = f s) ->
  (forall s x, f (set_form_hidden x s) = f s) ->
  preserves f _hideForm.
Proof.
  intros H1 H2. unfold _hideForm.
  apply preserves_bind; [|intros _]; apply preserves_update; intros s; auto.
Qed.

Lemma setLocalStorage_frame {B} (f : State -> B) :
  (forall s x, f (set_localStorage x s) = f s) ->
  preserves f _setLocalStorage.
Proof.
  intros H. unfold _setLocalStorage.
  frame. apply preserves_update. auto.
Qed.

Lemma setLocalStorage_throws s e :
  JSON_stringify (app_workouts s) = Throw e ->
  _setLocalStorage s = (Throw e, s).
Proof.
  intros H. unfold _setLocalStorage, bind, read, lift. by rw H.
Qed.

Lemma setLocalStorage_saves s blob :
  JSON_stringify (app_workouts s) = Ret (Some blob) ->
  _setLocalStorage s = (Ret tt, set_localStorage (Some blob) s).
Proof.
  intros H. unfold _setLocalStorage, bind, read, lift, update. by rw H.
Qed.

Lemma renderWorkoutMarker_frame {B} (f : State -> B) i :
  (forall s x, f (set_fresh x s) = f s) ->
  (forall s x, f (set_map x s) = f s) ->
  (forall s x, f (set_workouts x s) = f s) ->
  preserves f (_renderWorkoutMarker i).
Proof.
  intros H1 H2 H3.
  assert (forall g, preserves f (update (set_layers g))) as Hl.
  { intros g. apply preserves_update. intros s. unfold set_layers.
    destruct (app_map s); auto. }
  unfold _renderWorkoutMarker.
  apply preserves_bind; first apply workout_at_frame. intros w.
  apply preserves_bind; first apply preserves_lift. intros coords.
  apply preserves_bind.
  { unfold L_marker, new_object. repeat case_match; try apply preserves_lift.
    apply preserves_bind; last (intros; apply preserves_ret).
    intros s. simpl. auto. }
  intros marker.
  apply preserves_bind.
  { unfold addTo. apply preserves_bind; first apply preserves_read.
    intros [lm|]; [apply Hl | apply preserves_throw]. }
  intros _.
  apply preserves_bind; first apply preserves_lift. intros type.
  apply preserves_bind; first apply preserves_lift. intros className.
  apply preserves_bind; first apply Hl. intros _.
  apply preserves_bind; first apply preserves_lift. intros type'.
  apply preserves_bind; first apply preserves_lift. intros description.
  apply preserves_bind; first apply preserves_lift. intros content.
  apply preserves_bind; first apply Hl. intros _.
  apply preserves_bind; first apply preserves_lift. intros w'.
  unfold store_at. apply preserves_update. intros s.
  destruct (app_workouts s); auto.
Qed.

Lemma set_layers_workouts g s : app_workouts (set_layers g s) = app_workouts s.
Proof. unfold set_layers. by destruct (app_map s). Qed.

Lemma L_marker_workouts coords : preserves app_workouts (L_marker coords).
Proof.
  unfold L_marker, new_object. repeat case_match; try apply preserves_lift.
  apply preserves_bind; last (intros; apply preserves_ret). by intros s.
Qed.

Lemma addTo_workouts marker : preserves app_workouts (addTo marker).
Proof.
  unfold addTo. apply preserves_bind; first apply preserves_read.
  intros [lm|]; [|apply preserves_throw].
  apply preserves_update, set_layers_workouts.
Qed.

Lemma on_layer_workouts h g : preserves app_workouts (on_layer h g).
Proof. apply preserves_update, set_layers_workouts. Qed.

Lemma marker_remove_workouts marker : preserves app_workouts (marker_remove marker).
Proof.
  destruct marker; try apply preserves_throw.
  apply preserves_update. intros s. apply set_layers_workouts.
Qed.

(** [_renderWorkoutMarker] writes one property of one record. *)
Definition marked_at (i : nat) (before after : value) : Prop :=
  after = before
  \/ exists l w w' h,
       before = VArr l /\ l !! i = Some w
       /\ set w "marker" (VMarker h) = Ret w' /\ after = VArr (<[i := w']> l).

Ltac wp_skip lem :=
  apply wp_bind, (wp_preserved app_workouts); [apply lem|];
  let o := fresh "o" in let s' := fresh "s" in let H := fresh "H" in
  intros o s' H; destruct o as [?| |]; [| left; congruence ..].

Lemma renderWorkoutMarker_workouts i s :
  marked_at i (app_workouts s) (app_workouts (_renderWorkoutMarker i s).2).
Proof.
  unfold _renderWorkoutMarker. rw (bind_eq _ _ _ _ _ (workout_at_eq i s)).
  match goal with |- marked_at _ _ (app_workouts (?m s).2) =>
    change (wp m s (fun _ s' => marked_at i (app_workouts s) (app_workouts s')))
  end.
  wp_skip @preserves_lift.
  wp_skip L_marker_workouts.
  wp_skip addTo_workouts.
  wp_skip @preserves_lift.
  wp_skip @preserves_lift.
  wp_skip on_layer_workouts.
  wp_skip @preserves_lift.
  wp_skip @preserves_lift.
  wp_skip @preserves_lift.
  wp_skip on_layer_workouts.
  apply wp_bind, wp_lift.
  destruct (set _ _ _) as [w'| |] eqn:Hset; [| left; congruence ..].
  unfold store_at. apply wp_update.
  unfold element in Hset.
  repeat match goal with H : app_workouts _ = app_workouts _ |- _ =>
    rw H; clear H end.
  destruct (app_workouts s) as [| | | | | | |l|]; try done.
  destruct (l !! i) as [w|] eqn:Hw; last done.
  right. by eexists l, w, w', _.
Qed.

(** The two popup calls of [_renderWorkoutMarker] on the layers. *)
Definition with_popup (h : nat) (className : string) (running : bool)
    (description : string) (ls : list Layer) : list Layer :=
  map (fun l => if decide (layer_marker l = h)
                then mkLayer (layer_marker l) (layer_latlng l) (popup_className l)
                       (Some (running, description)) else l)
    (map (fun l => if decide (layer_marker l = h)
                   then mkLayer (layer_marker l) (layer_latlng l)
                          (Some className) (popup_content l) else l) ls).

Lemma renderWorkoutMarker_ready s lm i l p fs lat lng type description :
  app_map s = Some lm ->
  app_workouts s = VArr l ->
  l !! i = Some (VObj p fs) ->
  lookup_prop "coords" fs = Some (VArr [VNum lat; VNum lng]) ->
  PrimFloat.is_nan lat || PrimFloat.is_nan lng = false ->
  lookup_prop "type" fs = Some (VStr type) ->
  lookup_prop "description" fs = Some (VStr description) ->
  _renderWorkoutMarker i s
  = (Ret tt,
     set_workouts (VArr (<[i := VObj p (assign_prop "marker" (VMarker (fresh s)) fs)]> l))
       (set_map (Some (mkLMap (view_center lm) (view_zoom lm)
                   (with_popup (fresh s) (type +:+ "-popup")
                      (String.eqb type "running") description
                      (layers lm ++ [mkLayer (fresh s) (lat, lng) None None]))
                   (click_listener lm)))
          (set_fresh (S (fresh s)) s))).
Proof.
  intros Hm Hl Hi Hc Hnan Hty Hd.
  unfold _renderWorkoutMarker.
  rw (bind_eq _ _ _ _ _ (workout_at_eq i s)).
  unfold element. rw Hl Hi.
  destruct s; simpl in Hm, Hl; subst.
  unfold L_marker, addTo, bindPopup, setPopupContent, on_layer, store_at,
    new_object, set_layers, bind, lift, read, update, ret.
  simpl. rw Hc Hty Hd. simpl. by rw Hnan.
Qed.

(** The list entry of a record, for a running and for a cycling one. *)
Definition entry_of (node : nat) (type id metric extra : string)
    (x : float) (fs : list (string * value)) : Li :=
  mkLi node (VStr type) id (field "description" fs)
    [Shown (field "distance" fs); Shown (field "duration" fs);
     Fixed1 x; Shown (field extra fs)] true.

Lemma renderWorkout_running s p fs id pace :
  lookup_prop "type" fs = Some (VStr "running") ->
  lookup_prop "id" fs = Some (VStr id) ->
  lookup_prop "pace" fs = Some (VNum pace) ->
  _renderWorkout (VObj p fs) s
  = (Ret tt,
     set_entries (entry_of (fresh s) "running" id "pace" "cadence" pace fs :: entries s)
       (set_fresh (S (fresh s)) s)).
Proof.
  intros Hty Hid Hp. destruct s.
  unfold _renderWorkout, new_object, bind, lift, read, update, ret. simpl.
  by rw Hty Hid /= Hp.
Qed.

Lemma renderWorkout_cycling s p fs id speed :
  lookup_prop "type" fs = Some (VStr "cycling") ->
  lookup_prop "id" fs = Some (VStr id) ->
  lookup_prop "speed" fs = Some (VNum speed) ->
  _renderWorkout (VObj p fs) s
  = (Ret tt,
     set_entries
       (entry_of (fresh s) "cycling" id "speed" "elevationGain" speed fs :: entries s)
       (set_fresh (S (fresh s)) s)).
Proof.
  intros Hty Hid Hp. destruct s.
  unfold _renderWorkout, new_object, bind, lift, read, update, ret. simpl.
  by rw Hty Hid /= Hp.
Qed.

Lemma getPosition_eq geolocation s :
  _getPosition geolocation s
  = (Ret tt, if geolocation then set_position_requested true s else s).
Proof. by destruct geolocation. Qed.

(** Loading the page with a saved array makes it the store, whatever
    becomes of the list entries. *)
Lemma getLocalStorage_array s ws :
  localStorage_workouts s = Some (Json (JArr ws)) ->
  app_workouts (_getLocalStorage s).2 = VArr (map revive ws).
Proof.
  intros H. unfold _getLocalStorage.
  unfold bind at 1 2, read at 1, lift at 1. rw H. simpl.
  rw (bind_tail app_workouts) //.
  intros _. apply preserves_bind; first apply workouts_array_frame.
  intros l. apply preserves_forEach, renderWorkout_workouts.
Qed.

Lemma load_array ws geolocation :
  app_workouts (load (Some (Json (JArr ws))) geolocation).2
  = VArr (map revive ws).
Proof.
  unfold load, constructor.
  rw (bind_eq _ _ _ _ _ (getPosition_eq _ _)).
  rw (bind_tail app_workouts); last by intros _; apply preserves_update.
  destruct geolocation; by apply getLocalStorage_array.
Qed.

(** ** Adding a record *)

(** The statements of [_newWorkout] that follow the construction of the
    record. *)
Definition after_build (workout : value) : M unit :=
  let! _ := push workout in
  let! i := read (fun s => pred (array_length (app_workouts s))) in
  let! _ := _renderWorkoutMarker i in
  let! workout := workout_at i in
  let! _ := _renderWorkout workout in
  let! _ := _hideForm in
  _setLocalStorage.

Lemma push_eq w s ws :
  app_workouts s = VArr ws ->
  push w s = (Ret tt, set_workouts (VArr (ws ++ [w])) s).
Proof. intros H. unfold push, workouts_array, bind, read, update, ret. by rw H. Qed.

Lemma last_index {A} (ws : list A) w : pred (length (ws ++ [w])) = length ws.
Proof. rw length_app /=. lia. Qed.

Lemma after_build_eq w s ws :
  app_workouts s = VArr ws ->
  after_build w s
  = (let! _ := _renderWorkoutMarker (length ws) in
     let! workout := workout_at (length ws) in
     let! _ := _renderWorkout workout in
     let! _ := _hideForm in
     _setLocalStorage) (set_workouts (VArr (ws ++ [w])) s).
Proof.
  intros H. unfold after_build. rw (bind_eq _ _ _ _ _ (push_eq w s ws H)).
  unfold bind at 1, read at 1. simpl. by rw last_index.
Qed.

Lemma after_marker_workouts i :
  preserves app_workouts
    (let! workout := workout_at i in
     let! _ := _renderWorkout workout in
     let! _ := _hideForm in
     _setLocalStorage).
Proof.
  apply preserves_bind; first apply workout_at_frame. intros w.
  apply preserves_bind; first apply renderWorkout_workouts. intros _.
  apply preserves_bind; first by apply hideForm_frame. intros _.
  by apply setLocalStorage_frame.
Qed.

Lemma after_build_workouts r s ws :
  app_workouts s = VArr ws ->
  exists w,
    app_workouts (after_build r s).2 = VArr (ws ++ [w])
    /\ (w = r \/ exists h, set r "marker" (VMarker h) = Ret w).
Proof.
  intros H. rw (after_build_eq r s ws H).
  rw (bind_tail app_workouts); last by intros _; apply after_marker_workouts.
  destruct (renderWorkoutMarker_workouts (length ws)
              (set_workouts (VArr (ws ++ [r])) s)) as [->|(l & w & w' & h & Hl & Hw & Hset & ->)].
  - exists r. split; [done | by left].
  - simpl in Hl. injection Hl as <-.
    rw list_lookup_middle // in Hw. injection Hw as <-.
    exists w'. split; last by right; exists h.
    f_equal. rw insert_app_r_alt // Nat.sub_diag //.
Qed.

Lemma after_build_alerts r : preserves alerts (after_build r).
Proof.
  unfold after_build.
  apply preserves_bind.
  { unfold push. apply preserves_bind; first apply workouts_array_frame.
    intros ws. by apply preserves_update. }
  intros _. apply preserves_bind; first apply preserves_read. intros i.
  apply preserves_bind; first by apply renderWorkoutMarker_frame. intros _.
  apply preserves_bind; first apply workout_at_frame. intros w.
  apply preserves_bind; first apply renderWorkout_alerts. intros _.
  apply preserves_bind; first by apply hideForm_frame. intros _.
  by apply setLocalStorage_frame.
Qed.

(** [_newWorkout] once the form and the click are read. *)
Lemma newWorkout_running s clk lat lng :
  app_mapEvent s = Some (lat, lng) ->
  inputType (form s) = "running" ->
  _newWorkout clk s =
    let d := unary_plus (inputDistance (form s)) in
    let t := unary_plus (inputDuration (form s)) in
    let c := unary_plus (inputCadence (form s)) in
    if negb (validInputs [d; t; c]) || negb (isPositiveInputs [d; t; c])
    then alert invalid_message s
    else
      match Running clk (VArr [VNum lat; VNum lng]) (VNum d) (VNum t) (VNum c) with
      | Ret w => after_build w s
      | Throw e => (Throw e, s)
      | Unmodelled => (Unmodelled, s)
      end.
Proof.
  intros Hm Hty. unfold _newWorkout, bind at 1 2, read. rw Hm Hty. simpl.
  by case_match.
Qed.

Lemma newWorkout_cycling s clk lat lng :
  app_mapEvent s = Some (lat, lng) ->
  inputType (form s) = "cycling" ->
  _newWorkout clk s =
    let d := unary_plus (inputDistance (form s)) in
    let t := unary_plus (inputDuration (form s)) in
    let e := unary_plus (inputElevation (form s)) in
    if negb (validInputs [d; t; e]) || negb (isPositiveInputs [d; t])
    then alert invalid_message s
    else
      match Cycling clk (VArr [VNum lat; VNum lng]) (VNum d) (VNum t) (VNum e) with
      | Ret w => after_build w s
      | Throw e => (Throw e, s)
      | Unmodelled => (Unmodelled, s)
      end.
Proof.
  intros Hm Hty. unfold _newWorkout, bind at 1 2, read. rw Hm Hty. simpl.
  by case_match.
Qed.

Lemma newWorkout_other s clk lat lng :
  app_mapEvent s = Some (lat, lng) ->
  inputType (form s) ≠ "running" ->
  inputType (form s) ≠ "cycling" ->
  _newWorkout clk s = after_build VUndefined s.
Proof.
  intros Hm H1 H2. unfold _newWorkout, bind at 1 2, read. rw Hm. simpl.
  destruct (String.eqb_spec (inputType (form s)) "running"); first done.
  destruct (String.eqb_spec (inputType (form s)) "cycling"); first done.
  done.
Qed.

Lemma newWorkout_without_click s clk :
  app_mapEvent s = None ->
  _newWorkout clk s
  = (Throw (TypeError "Cannot read properties of undefined (reading 'latlng')"), s).
Proof. intros H. unfold _newWorkout, bind at 1 2, read. by rw H. Qed.

Lemma running_check d t c :
  negb (validInputs [d; t; c]) || negb (isPositiveInputs [d; t; c])
  = negb (finite_positive d && finite_positive t && finite_positive c).
Proof.
  unfold validInputs, isPositiveInputs, finite_positive. simpl.
  by destruct (isFinite d), (isFinite t), (isFinite c),
    (PrimFloat.ltb 0 d), (PrimFloat.ltb 0 t), (PrimFloat.ltb 0 c).
Qed.

Lemma cycling_check d t e :
  negb (validInputs [d; t; e]) || negb (isPositiveInputs [d; t])
  = negb (finite_positive d && finite_positive t && isFinite e).
Proof.
  unfold validInputs, isPositiveInputs, finite_positive. simpl.
  by destruct (isFinite d), (isFinite t), (isFinite e),
    (PrimFloat.ltb 0 d), (PrimFloat.ltb 0 t).
Qed.

(** What the record needs for its marker and its list entry. *)
Record renderable (fs : list (string * value)) (lat lng : float)
    (type id description metric extra : string) (x : float) : Prop := {
  has_coords : lookup_prop "coords" fs = Some (VArr [VNum lat; VNum lng]);
  coords_numbers : PrimFloat.is_nan lat || PrimFloat.is_nan lng = false;
  has_type : lookup_prop "type" fs = Some (VStr type);
  has_id : lookup_prop "id" fs = Some (VStr id);
  has_description : lookup_prop "description" fs = Some (VStr description);
  has_metric : lookup_prop metric fs = Some (VNum x);
  its_kind : type = "running" /\ metric = "pace" /\ extra = "cadence"
             \/ type = "cycling" /\ metric = "speed" /\ extra = "elevationGain"
}.

(** The state that [_newWorkout] leaves when the record is added to a map
    that is ready: the record is in the store with its marker, the marker is
    on the map, the entry is in the list and the form is cleared; local
    storage is as it was. *)
Definition added (s : State) (lm : LMap) (ws : list value) (p : proto)
    (fs : list (string * value)) (lat lng : float)
    (type id description metric extra : string) (x : float) : State :=
  let fs' := assign_prop "marker" (VMarker (fresh s)) fs in
  mkState
    (Some (mkLMap (view_center lm) (view_zoom lm)
             (with_popup (fresh s) (type +:+ "-popup") (String.eqb type "running")
                description (layers lm ++ [mkLayer (fresh s) (lat, lng) None None]))
             (click_listener lm)))
    (app_mapEvent s)
    (VArr (ws ++ [VObj p fs']))
    (localStorage_workouts s)
    (mkForm (inputType (form s)) Empty Empty Empty Empty)
    true
    (entry_of (S (fresh s)) type id metric extra x fs' :: entries s)
    (alerts s) (listeners s) (position_requested s) (S (S (fresh s))).

Lemma after_build_ready s lm ws p fs lat lng type id description metric extra x :
  app_map s = Some lm ->
  app_workouts s = VArr ws ->
  renderable fs lat lng type id description metric extra x ->
  after_build (VObj p fs) s
  = (Throw circular,
     added s lm ws p fs lat lng type id description metric extra x).
Proof.
  intros Hm Hws [Hc Hnan Hty Hid Hd Hx Hk].
  rw (after_build_eq _ s ws Hws).
  assert ((ws ++ [VObj p fs]) !! length ws = Some (VObj p fs)) as Hlast
    by by rw list_lookup_middle.
  rw (bind_eq _ _ _ _ _
        (renderWorkoutMarker_ready (set_workouts (VArr (ws ++ [VObj p fs])) s)
           lm (length ws) (ws ++ [VObj p fs]) p fs
           lat lng type description Hm eq_refl Hlast Hc Hnan Hty Hd)).
  rw (bind_eq _ _ _ _ _ (workout_at_eq _ _)).
  set (fs' := assign_prop "marker" (VMarker _) fs).
  assert (element (length ws)
            (VArr (<[length ws := VObj p fs']> (ws ++ [VObj p fs])))
          = VObj p fs') as Hel.
  { unfold element. rw insert_app_r_alt // Nat.sub_diag /=.
    by rw list_lookup_middle. }
  simpl app_workouts at 1. rw Hel.
  assert (forall k, k ≠ "marker" -> lookup_prop k fs' = lookup_prop k fs) as Hfs.
  { intros k Hne. by apply lookup_assign_ne. }
  assert (JSON_stringify (VArr (ws ++ [VObj p fs'])) = Throw circular) as Hser.
  { apply (stringify_store_with_marker _ p fs' (fresh s)).
    - apply elem_of_app. right. constructor.
    - apply lookup_assign_eq. }
  destruct Hk as [(-> & -> & ->)|(-> & -> & ->)].
  - rw (bind_eq _ _ _ _ _ (renderWorkout_running _ p fs' id x _ _ _));
      rw ?Hfs //.
    unfold _hideForm. destruct s; simpl in *; subst.
    unfold bind at 1 2, update. simpl.
    rw (setLocalStorage_throws _ circular); simpl;
      rw insert_app_r_alt // Nat.sub_diag //.
  - rw (bind_eq _ _ _ _ _ (renderWorkout_cycling _ p fs' id x _ _ _));
      rw ?Hfs //.
    unfold _hideForm. destruct s; simpl in *; subst.
    unfold bind at 1 2, update. simpl.
    rw (setLocalStorage_throws _ circular); simpl;
      rw insert_app_r_alt // Nat.sub_diag //.
Qed.

Lemma running_renderable clk lat lng d t x :
  PrimFloat.is_nan lat || PrimFloat.is_nan lng = false ->
  renderable
    [("date", VDate (new_Date clk)); ("id", VStr (new_id clk));
     ("marker", VUndefined); ("coords", VArr [VNum lat; VNum lng]);
     ("distance", VNum d); ("duration", VNum t);
     ("type", VStr "running"); ("cadence", VNum x);
     ("pace", VNum (t / d));
     ("description", VStr (label "Running" (new_Date clk)))]
    lat lng "running" (new_id clk) (label "Running" (new_Date clk))
    "pace" "cadence" (t / d).
Proof. intros H. split; try done. by left. Qed.

Lemma cycling_renderable clk lat lng d t x :
  PrimFloat.is_nan lat || PrimFloat.is_nan lng = false ->
  renderable
    [("date", VDate (new_Date clk)); ("id", VStr (new_id clk));
     ("marker", VUndefined); ("coords", VArr [VNum lat; VNum lng]);
     ("distance", VNum d); ("duration", VNum t);
     ("type", VStr "cycling"); ("elevationGain", VNum x);
     ("speed", VNum (d / (t / 60)));
     ("description", VStr (label "Cycling" (new_Date clk)))]
    lat lng "cycling" (new_id clk) (label "Cycling" (new_Date clk))
    "speed" "elevationGain" (d / (t / 60)).
Proof. intros H. split; try done. by right. Qed.

(** The map is ready and the user has clicked on it at a valid place. *)
Record ready (s : State) (lm : LMap) (ws : list value) (lat lng : float)
  : Prop := {
  ready_map : app_map s = Some lm;
  ready_store : app_workouts s = VArr ws;
  ready_click : app_mapEvent s = Some (lat, lng);
  ready_latlng : PrimFloat.is_nan lat || PrimFloat.is_nan lng = false
}.

(** ** Deleting a record *)

Lemma find_id_found id ws : forall i j w,
  find_id id i ws = Ret (Some (j, w)) ->
  i <= j /\ ws !! (j - i) = Some w
  /\ exists wid, get w "id" = Ret wid /\ strict_equals_string wid id = true.
Proof.
  induction ws as [|x ws IH]; intros i j w; first done. simpl.
  destruct (get x "id") as [wid| |] eqn:Hx; try done. simpl.
  destruct (strict_equals_string wid id) eqn:E.
  - intros [= <- <-]. rw Nat.sub_diag. eauto.
  - intros H. apply IH in H as (Hle & Hw & Hid).
    split; first lia. split; last done.
    by replace (j - i) with (S (j - S i)) by lia.
Qed.

Lemma find_id_absent id ws i :
  Forall (fun w => exists wid, get w "id" = Ret wid
                    /\ strict_equals_string wid id = false) ws ->
  find_id id i ws = Ret None.
Proof.
  intros H. revert i. induction H as [|w ws (wid & Hw & Hne) _ IH]; intros i.
  - done.
  - simpl. rw Hw /= Hne. apply IH.
Qed.

Lemma findWorkout_eq el s ws :
  app_workouts s = VArr ws ->
  _findWorkout el s = (find_id (dataset_id el) 0 ws, s).
Proof.
  intros H. unfold _findWorkout, workouts_array, bind, read, lift, ret.
  by rw H.
Qed.

(** [_removeWorkout] once the record is found. *)
Lemma removeWorkout_found s el ws index w :
  app_workouts s = VArr ws ->
  find_id (dataset_id el) 0 ws = Ret (Some (index, w)) ->
  _removeWorkout (Some el) s
  = (let! marker := lift (get w "marker") in
     let! _ := marker_remove marker in
     _setLocalStorage)
      (set_entries (filter (fun li => li_node li ≠ li_node el) (entries s))
         (set_workouts (VArr (delete index ws)) s)).
Proof.
  intros Hws Hf. unfold _removeWorkout.
  unfold bind at 1. rw (findWorkout_eq el s ws Hws) Hf.
  unfold workouts_array, bind at 1 2, read, update, ret. by rw Hws.
Qed.

(** ** What the handlers do to the records of the store *)

(** The property [k] of every record, in the order of the store. *)
Definition column (k : string) (ws : value) : list (outcome value) :=
  match ws with
  | VArr l => (fun w => get w k) <$> l
  | _ => []
  end.

Lemma marked_at_column k i before after :
  k ≠ "marker" -> marked_at i before after -> column k after = column k before.
Proof.
  intros Hk [->|(l & w & w' & h & -> & Hw & Hset & ->)]; first done.
  simpl. rw list_fmap_insert (get_set_ne _ _ _ _ _ Hset) //.
  apply list_insert_id. by rw list_lookup_fmap Hw.
Qed.

Lemma renderWorkoutMarker_column k i :
  k ≠ "marker" ->
  preserves (fun s => column k (app_workouts s)) (_renderWorkoutMarker i).
Proof.
  intros Hk s. apply (marked_at_column k i); first done.
  apply renderWorkoutMarker_workouts.
Qed.

(** [_loadMap] places the markers and writes nothing else in a record. *)
Lemma loadMap_column k position :
  k ≠ "marker" ->
  preserves (fun s => column k (app_workouts s)) (_loadMap position).
Proof.
  intros Hk. unfold _loadMap.
  apply preserves_bind; first by apply preserves_update.
  intros _. apply preserves_bind; first apply workouts_array_frame.
  intros ws. apply preserves_forEach. intros i.
  by apply renderWorkoutMarker_column.
Qed.

(** [_newWorkout] leaves the records of the store as they are and adds at
    most one at the end. *)
Lemma newWorkout_appends s clk ws :
  app_workouts s = VArr ws ->
  exists extra, app_workouts (_newWorkout clk s).2 = VArr (ws ++ extra)
                /\ length extra <= 1.
Proof.
  intros Hws.
  assert (forall r, exists extra,
            app_workouts (after_build r s).2 = VArr (ws ++ extra)
            /\ length extra <= 1) as Hbuild.
  { intros r. destruct (after_build_workouts r s ws Hws) as (w & -> & _).
    by exists [w]. }
  assert (exists extra, app_workouts s = VArr (ws ++ extra) /\ length extra <= 1)
    as Hsame.
  { exists []. rw app_nil_r. split; [done | simpl; lia]. }
  destruct (app_mapEvent s) as [[lat lng]|] eqn:Hm.
  - destruct (String.eqb_spec (inputType (form s)) "running") as [Hr|Hr].
    { rw (newWorkout_running s clk lat lng Hm Hr). cbv zeta.
      rw Running_eq. case_match; [done | apply Hbuild]. }
    destruct (String.eqb_spec (inputType (form s)) "cycling") as [Hc|Hc].
    { rw (newWorkout_cycling s clk lat lng Hm Hc). cbv zeta.
      rw Cycling_eq. case_match; [done | apply Hbuild]. }
    rw (newWorkout_other s clk lat lng Hm Hr Hc). apply Hbuild.
  - unfold _newWorkout, bind at 1 2, read. by rw Hm.
Qed.

(** [_removeWorkout] leaves the store as it is or takes one record out. *)
Lemma removeWorkout_deletes s workoutEl ws :
  app_workouts s = VArr ws ->
  app_workouts (_removeWorkout workoutEl s).2 = VArr ws
  \/ exists index, index < length ws
       /\ app_workouts (_removeWorkout workoutEl s).2 = VArr (delete index ws).
Proof.
  intros Hws. destruct workoutEl as [el|]; last by left.
  destruct (find_id (dataset_id el) 0 ws) as [[[index w]|]| |] eqn:Hf.
  - right. exists index. split.
    { apply find_id_found in Hf as (_ & Hw & _).
      apply lookup_lt_Some in Hw. lia. }
    rw (removeWorkout_found s el ws index w Hws Hf).
    rw (bind_tail app_workouts) //.
    intros m. apply preserves_bind; first apply marker_remove_workouts.
    intros _. by apply setLocalStorage_frame.
  - left. unfold _removeWorkout, bind. by rw (findWorkout_eq el s ws Hws) Hf.
  - left. unfold _removeWorkout, bind. by rw (findWorkout_eq el s ws Hws) Hf.
  - left. unfold _removeWorkout, bind. by rw (findWorkout_eq el s ws Hws) Hf.
Qed.

(** ** A session

    The states and values at which the theorems below are tried. *)

Definition march3 : Date := mkDate 1709461800000 2 3 "2024-03-03T10:30:00.000Z".
Definition clk0 := mkClock march3 1709461800123.

Example new_id_example :
  new_id clk0 = "9461800123".
Proof. reflexivity. Qed.

(** The page is loaded with nothing stored, the position is found, the user
    clicks on the map and fills in the form. *)
Definition opened : State := (load None true).2.
Definition located : State := (_loadMap (51.5, 0.25)%float opened).2.
Definition clicked : State := (_showForm (51.5, 0.25)%float located).2.

Definition run5 : Form :=
  mkForm "running" (Typed 5) (Typed 25) (Typed 178) Empty.
Definition ride20 : Form :=
  mkForm "cycling" (Typed 20) (Typed 60) Empty (Typed (-300)).

(** The state after the first record is submitted. *)
Definition submitted : State := (_newWorkout clk0 (set_form run5 clicked)).2.

(** The first record and its entry in the list. *)
Definition first_run : value := element 0 (app_workouts submitted).
Definition first_entry : Li :=
  default (mkLi 0 VUndefined "" VUndefined [] false) (head (entries submitted)).

Lemma first_run_eq :
  first_run
  = VObj RunningProto
      [("date", VDate march3); ("id", VStr "9461800123"); ("marker", VMarker 0);
       ("coords", VArr [VNum 51.5; VNum 0.25]); ("distance", VNum 5);
       ("duration", VNum 25); ("type", VStr "running"); ("cadence", VNum 178);
       ("pace", VNum 5); ("description", VStr "Running on March 3")].
Proof. reflexivity. Qed.

(** The state after the same form is submitted again within the same
    millisecond. *)
Definition submitted_twice : State :=
  (_newWorkout clk0 (set_form run5 submitted)).2.

(** The text that a running record without a marker is saved as. *)
Definition saved_run : json :=
  JObj
    [("date", JStr "2024-03-03T10:30:00.000Z"); ("id", JStr "9461800123");
     ("coords", JArr [JNum 51.5; JNum 0.25]); ("distance", JNum 5);
     ("duration", JNum 25); ("type", JStr "running"); ("cadence", JNum 178);
     ("pace", JNum 5); ("description", JStr "Running on March 3")].

(** The running record of the session, before its marker. *)
Definition run0 : creation := NewRunning clk0 51.5 0.25 5 25 178.

(** The page is loaded with one saved record; the position is not yet
    found. *)
Definition restored : State := (load (Some (Json (JArr [saved_run]))) true).2.
Definition restored_entry : Li :=
  default (mkLi 0 VUndefined "" VUndefined [] false) (head (entries restored)).

Definition no_distance : Form :=
  mkForm "running" (Typed 0) (Typed 25) (Typed 178) Empty.

Definition stray_entry : Li :=
  mkLi 7 (VStr "running") "0000000000" (VStr "Running on March 3") [] true.

Definition clk1 : Clock := mkClock march3 1709461800124.

(** * The claims *)

(** ** C1: saving and loading *)

(** As stated, C1 fails: a running record without a marker is saved and
    loaded, and what comes back is a plain object, on which [calcPace] is not
    a function, with a text where the record has its [Date]. *)
Lemma reloaded_record_is_plain :
  JSON_stringify (VArr [built run0]) = Ret (Some (Json (JArr [saved_run])))
  /\ JSON_parse (Json (JArr [saved_run])) = Ret (VArr [reloaded run0])
  /\ invoke (built run0) "calcPace" = Ret (built run0, VNum 5)
  /\ invoke (reloaded run0) "calcPace"
     = Throw (TypeError "calcPace is not a function")
  /\ get (built run0) "date" = Ret (VDate march3)
  /\ get (reloaded run0) "date" = Ret (VStr "2024-03-03T10:30:00.000Z").
Proof. repeat split; reflexivity. Qed.

(** C1, as the code has it: a store of records as the constructors build
    them ([built]), none with a marker, is saved as the array of their
    texts, in order, and that text loads as the array of plain objects
    [reloaded], in the same order.  A reloaded object has the identifier,
    the type and the description of the record; every number of the record
    comes back as [renum] gives it, which is the number itself when it is
    finite and positive; the date comes back as its ISO text; the object has
    no marker and inherits no method of [Running] or [Cycling]. *)
Theorem save_then_load (cs : list creation) :
  (forall clk lat lng d t x,
     Running clk (VArr [VNum lat; VNum lng]) (VNum d) (VNum t) (VNum x)
     = Ret (built (NewRunning clk lat lng d t x))
     /\ Cycling clk (VArr [VNum lat; VNum lng]) (VNum d) (VNum t) (VNum x)
        = Ret (built (NewCycling clk lat lng d t x)))
  /\ JSON_stringify (VArr (built <$> cs)) = Ret (Some (Json (JArr (saved <$> cs))))
  /\ JSON_parse (Json (JArr (saved <$> cs))) = Ret (VArr (reloaded <$> cs))
  /\ (forall s geolocation,
        app_workouts s = VArr (built <$> cs) ->
        _setLocalStorage s
        = (Ret tt, set_localStorage (Some (Json (JArr (saved <$> cs)))) s)
        /\ app_workouts (load (Some (Json (JArr (saved <$> cs)))) geolocation).2
           = VArr (reloaded <$> cs))
  /\ (forall c,
        get (reloaded c) "id" = get (built c) "id"
        /\ get (reloaded c) "type" = get (built c) "type"
        /\ get (reloaded c) "description" = get (built c) "description"
        /\ (forall k x, get (built c) k = Ret (VNum x) ->
              get (reloaded c) k = Ret (renum x))
        /\ (exists lat lng,
              get (built c) "coords" = Ret (VArr [VNum lat; VNum lng])
              /\ get (reloaded c) "coords" = Ret (VArr [renum lat; renum lng]))
        /\ (exists d,
              get (built c) "date" = Ret (VDate d)
              /\ get (reloaded c) "date" = Ret (VStr (toISOString d)))
        /\ get (reloaded c) "marker" = Ret VUndefined
        /\ (forall m, invoke (reloaded c) m
                      = Throw (TypeError (m +:+ " is not a function"))))
  /\ (forall x, finite_positive x = true -> renum x = VNum x).
Proof.
  split; first by intros; split; [apply built_running | apply built_cycling].
  split; first apply stringify_built.
  split; first apply parse_saved.
  split.
  { intros s g Hs. split.
    - apply setLocalStorage_saves. rw Hs. apply stringify_built.
    - rw load_array. pose proof (parse_saved cs) as H. simpl in H.
      injection H as H. by rw H. }
  split; last apply renum_finite_positive.
  intros c. repeat split.
  - by destruct c.
  - by destruct c.
  - by destruct c.
  - apply reloaded_numbers.
  - destruct c; by eexists _, _.
  - destruct c; by eexists.
  - by destruct c.
  - apply reloaded_invoke.
Qed.

(** ** C2: the marker in the saved text *)

(** C2: what the code does where the claim asks for a text without the
    marker.  A store that holds a record with a marker is not saved:
    [JSON.stringify] reaches the marker and throws, [_setLocalStorage]
    passes the exception on, and local storage keeps what it had. *)
Theorem setLocalStorage_fails_on_marker (s : State) (ws : list value)
    (p : proto) (fs : list (string * value)) (h : nat)
    (Hws : app_workouts s = VArr ws)
    (Hin : VObj p fs ∈ ws)
    (Hmarker : lookup_prop "marker" fs = Some (VMarker h)) :
  _setLocalStorage s = (Throw circular, s).
Proof.
  apply setLocalStorage_throws. rw Hws.
  by apply (stringify_store_with_marker ws p fs h).
Qed.

Lemma setLocalStorage_fails_on_marker_witness :
  _setLocalStorage submitted = (Throw circular, submitted)
  /\ localStorage_workouts submitted = None.
Proof.
  split; last reflexivity.
  apply (setLocalStorage_fails_on_marker submitted [first_run] RunningProto
           [("date", VDate march3); ("id", VStr "9461800123");
            ("marker", VMarker 0);
            ("coords", VArr [VNum 51.5; VNum 0.25]); ("distance", VNum 5);
            ("duration", VNum 25); ("type", VStr "running");
            ("cadence", VNum 178); ("pace", VNum 5);
            ("description", VStr "Running on March 3")] 0).
  - reflexivity.
  - rw -first_run_eq. apply list_elem_of_here.
  - reflexivity.
Defined.

(** ** C3: validation of the form *)

(** The form is rejected: one alert, and nothing else has changed. *)
Definition rejected (clk : Clock) (s : State) : Prop :=
  _newWorkout clk s = (Ret tt, set_alerts (alerts s ++ [invalid_message]) s).

(** The form is accepted: no alert, and the store, when it is an array,
    gains one record at its end that holds the numbers of the form. *)
Definition accepted (clk : Clock) (s : State) (type extra : string)
    (d t x : float) : Prop :=
  alerts (_newWorkout clk s).2 = alerts s
  /\ forall ws, app_workouts s = VArr ws ->
       exists w,
         app_workouts (_newWorkout clk s).2 = VArr (ws ++ [w])
         /\ get w "type" = Ret (VStr type)
         /\ get w "distance" = Ret (VNum d)
         /\ get w "duration" = Ret (VNum t)
         /\ get w extra = Ret (VNum x).

(** C3: once the user has clicked on the map, [_newWorkout] accepts a
    running form exactly when distance, duration and cadence are finite and
    positive, and a cycling form exactly when distance and duration are
    finite and positive and the elevation gain is finite; any other form is
    answered by the alert and changes nothing, the store included.  Before
    any click [_newWorkout] stops on [this.#mapEvent.latlng] and changes
    nothing either. *)
Theorem newWorkout_validates (s : State) (clk : Clock) :
  let d := unary_plus (inputDistance (form s)) in
  let t := unary_plus (inputDuration (form s)) in
  let c := unary_plus (inputCadence (form s)) in
  let e := unary_plus (inputElevation (form s)) in
  (forall latlng, app_mapEvent s = Some latlng ->
     (inputType (form s) = "running" ->
        if finite_positive d && finite_positive t && finite_positive c
        then accepted clk s "running" "cadence" d t c
        else rejected clk s)
     /\ (inputType (form s) = "cycling" ->
        if finite_positive d && finite_positive t && isFinite e
        then accepted clk s "cycling" "elevationGain" d t e
        else rejected clk s))
  /\ (app_mapEvent s = None -> app_workouts (_newWorkout clk s).2 = app_workouts s).
Proof.
  intros d t c e. split; last by intros H; rw newWorkout_without_click.
  intros [lat lng] Hclick. split; intros Hty.
  - unfold accepted, rejected.
    rw (newWorkout_running s clk lat lng Hclick Hty). cbv zeta.
    fold d t c. rw running_check Running_eq.
    destruct (_ && _); cbn [negb]; last done.
    split; first by apply after_build_alerts.
    intros ws Hws.
    destruct (after_build_workouts
                (VObj RunningProto
                   [("date", VDate (new_Date clk)); ("id", VStr (new_id clk));
                    ("marker", VUndefined);
                    ("coords", VArr [VNum lat; VNum lng]);
                    ("distance", VNum d); ("duration", VNum t);
                    ("type", VStr "running"); ("cadence", VNum c);
                    ("pace", VNum (t / d));
                    ("description", VStr (label "Running" (new_Date clk)))])
                s ws Hws) as (w & Hw & Hr).
    exists w. split; first done.
    destruct Hr as [->|[h Hset]]; first done.
    by rw !(get_set_ne _ _ _ _ _ Hset).
  - unfold accepted, rejected.
    rw (newWorkout_cycling s clk lat lng Hclick Hty). cbv zeta.
    fold d t e. rw cycling_check Cycling_eq.
    destruct (_ && _); cbn [negb]; last done.
    split; first by apply after_build_alerts.
    intros ws Hws.
    destruct (after_build_workouts
                (VObj CyclingProto
                   [("date", VDate (new_Date clk)); ("id", VStr (new_id clk));
                    ("marker", VUndefined);
                    ("coords", VArr [VNum lat; VNum lng]);
                    ("distance", VNum d); ("duration", VNum t);
                    ("type", VStr "cycling"); ("elevationGain", VNum e);
                    ("speed", VNum (d / (t / 60)));
                    ("description", VStr (label "Cycling" (new_Date clk)))])
                s ws Hws) as (w & Hw & Hr).
    exists w. split; first done.
    destruct Hr as [->|[h Hset]]; first done.
    by rw !(get_set_ne _ _ _ _ _ Hset).
Qed.

Lemma newWorkout_validates_witness :
  rejected clk0 (set_form no_distance clicked).
Proof.
  exact (proj1 (proj1 (newWorkout_validates (set_form no_distance clicked) clk0)
                  (51.5, 0.25)%float eq_refl) eq_refl).
Defined.

(** The forms the specification lists are rejected, and a ride with a
    negative elevation gain is accepted. *)
Example rejected_forms :
  rejected clk0 (set_form (mkForm "running" (Typed (-1)) (Typed 25) (Typed 178) Empty) clicked)
  /\ rejected clk0 (set_form (mkForm "running" (Typed 5) (Typed nan) (Typed 178) Empty) clicked)
  /\ rejected clk0 (set_form (mkForm "running" (Typed 5) (Typed 25) (Typed 0) Empty) clicked)
  /\ rejected clk0 (set_form (mkForm "cycling" (Typed 0) (Typed 60) Empty (Typed 300)) clicked)
  /\ rejected clk0 (set_form (mkForm "cycling" (Typed 20) (Typed 60) Empty (Typed infinity)) clicked)
  /\ app_workouts (_newWorkout clk0 (set_form ride20 clicked)).2
     = VArr [VObj CyclingProto
               [("date", VDate march3); ("id", VStr "9461800123");
                ("marker", VMarker 0); ("coords", VArr [VNum 51.5; VNum 0.25]);
                ("distance", VNum 20); ("duration", VNum 60);
                ("type", VStr "cycling"); ("elevationGain", VNum (-300));
                ("speed", VNum 20); ("description", VStr "Cycling on March 3")]].
Proof. repeat split; reflexivity. Qed.

(** ** C4: loading the page *)

(** As stated, C4 fails: with a truncated text in local storage, or with the
    empty string, neither of which is the text of a JSON value, [new App()]
    ends in the [SyntaxError] of [JSON.parse], and the listeners of the form
    and of the list are not attached. *)
Lemma malformed_text_stops_the_constructor :
  (load (Some (Malformed "[{")) true).1 = Throw (SyntaxError "not valid JSON")
  /\ listeners (load (Some (Malformed "[{")) true).2 = false
  /\ (load (Some (Malformed "")) true).1 = Throw (SyntaxError "not valid JSON")
  /\ listeners (load (Some (Malformed "")) true).2 = false
  /\ listeners (load None true).2 = true.
Proof. repeat split; reflexivity. Qed.

(** C4, as the code has it: with no item in local storage, or with the text
    of a value that is not truthy ([null], [false], [0], the empty string
    literal), the constructor completes and the store stays empty; with the
    text of an empty array the store is that empty array; with a text that
    is not JSON, [JSON.parse] throws a [SyntaxError] that nothing catches:
    the constructor stops there, the store is empty, the text stays in local
    storage and the listeners are not attached. *)
Theorem hydration (geolocation : bool) :
  load None geolocation
  = (Ret tt,
     set_listeners true
       (if geolocation then set_position_requested true (page None)
        else page None))
  /\ (forall j, truthy (revive j) = false ->
        load (Some (Json j)) geolocation
        = (Ret tt,
           set_listeners true
             (if geolocation
              then set_position_requested true (page (Some (Json j)))
              else page (Some (Json j)))))
  /\ load (Some (Json (JArr []))) geolocation
     = (Ret tt,
        set_listeners true
          (if geolocation
           then set_position_requested true (page (Some (Json (JArr []))))
           else page (Some (Json (JArr [])))))
  /\ (forall raw,
        load (Some (Malformed raw)) geolocation
        = (Throw (SyntaxError "not valid JSON"),
           if geolocation
           then set_position_requested true (page (Some (Malformed raw)))
           else page (Some (Malformed raw))))
  /\ app_workouts (page None) = VArr []
  /\ entries (page None) = [].
Proof.
  split; first by destruct geolocation.
  split.
  { intros j Hj. unfold load, constructor.
    rw (bind_eq _ _ _ _ _ (getPosition_eq _ _)).
    unfold _getLocalStorage, bind, read, lift.
    destruct geolocation; simpl; by rw Hj. }
  split; first by destruct geolocation.
  split; first by intros raw; destruct geolocation.
  done.
Qed.

(** ** C5: when the save fails *)

(** As stated, C5 fails: the first record of a session is submitted, and
    the exception that comes out of [_newWorkout] is the [TypeError] of
    [JSON.stringify] itself, not an error of the application. *)
Lemma save_failure_is_the_TypeError :
  (_newWorkout clk0 (set_form run5 clicked)).1
  = Throw (mkError "TypeError" "Converting circular structure to JSON")
  /\ name circular ≠ "SerializationError".
Proof. split; [reflexivity | discriminate]. Qed.

(** C5, as the code has it.  On a map that is ready, a valid form adds the
    record to the store, its marker to the map and its entry to the list, and
    the save that follows fails on the new marker: [_newWorkout] ends in the
    [TypeError] of [JSON.stringify], local storage is as it was, and all that
    was done stays done ([added]).  When the record to delete has a marker and
    a record that remains has one, [_removeWorkout] takes the record, its
    entry and its marker away and ends in the same [TypeError], with local
    storage as it was. *)
Theorem save_failure_keeps_the_changes :
  (forall s clk lm ws lat lng,
     ready s lm ws lat lng ->
     let d := unary_plus (inputDistance (form s)) in
     let t := unary_plus (inputDuration (form s)) in
     let c := unary_plus (inputCadence (form s)) in
     let e := unary_plus (inputElevation (form s)) in
     (inputType (form s) = "running" ->
      finite_positive d && finite_positive t && finite_positive c = true ->
      _newWorkout clk s
      = (Throw circular,
         added s lm ws RunningProto
           [("date", VDate (new_Date clk)); ("id", VStr (new_id clk));
            ("marker", VUndefined); ("coords", VArr [VNum lat; VNum lng]);
            ("distance", VNum d); ("duration", VNum t);
            ("type", VStr "running"); ("cadence", VNum c);
            ("pace", VNum (t / d));
            ("description", VStr (label "Running" (new_Date clk)))]
           lat lng "running" (new_id clk) (label "Running" (new_Date clk))
           "pace" "cadence" (t / d)))
     /\ (inputType (form s) = "cycling" ->
      finite_positive d && finite_positive t && isFinite e = true ->
      _newWorkout clk s
      = (Throw circular,
         added s lm ws CyclingProto
           [("date", VDate (new_Date clk)); ("id", VStr (new_id clk));
            ("marker", VUndefined); ("coords", VArr [VNum lat; VNum lng]);
            ("distance", VNum d); ("duration", VNum t);
            ("type", VStr "cycling"); ("elevationGain", VNum e);
            ("speed", VNum (d / (t / 60)));
            ("description", VStr (label "Cycling" (new_Date clk)))]
           lat lng "cycling" (new_id clk) (label "Cycling" (new_Date clk))
           "speed" "elevationGain" (d / (t / 60)))))
  /\ (forall s el ws index w h p fs h',
        app_workouts s = VArr ws ->
        find_id (dataset_id el) 0 ws = Ret (Some (index, w)) ->
        get w "marker" = Ret (VMarker h) ->
        VObj p fs ∈ delete index ws ->
        lookup_prop "marker" fs = Some (VMarker h') ->
        _removeWorkout (Some el) s
        = (Throw circular,
           set_layers (filter (fun l => layer_marker l ≠ h))
             (set_entries (filter (fun li => li_node li ≠ li_node el) (entries s))
                (set_workouts (VArr (delete index ws)) s))))
  /\ name circular = "TypeError".
Proof.
  split; last split; last done.
  - intros s clk lm ws lat lng [Hm Hws Hclick Hnan] d t c e. split.
    + intros Hty Hvalid.
      rw (newWorkout_running s clk lat lng Hclick Hty). cbv zeta.
      fold d t c. rw running_check Hvalid Running_eq. cbn [negb].
      by apply after_build_ready, running_renderable.
    + intros Hty Hvalid.
      rw (newWorkout_cycling s clk lat lng Hclick Hty). cbv zeta.
      fold d t e. rw cycling_check Hvalid Cycling_eq. cbn [negb].
      by apply after_build_ready, cycling_renderable.
  - intros s el ws index w h p fs h' Hws Hf Hm Hin Hmarker.
    rw (removeWorkout_found s el ws index w Hws Hf).
    unfold bind at 1, lift. rw Hm.
    unfold bind, marker_remove, update.
    rw (setLocalStorage_throws _ circular) //.
    rw set_layers_workouts /=.
    by apply (stringify_store_with_marker _ p fs h').
Qed.

Lemma save_failure_keeps_the_changes_witness :
  _newWorkout clk0 (set_form run5 clicked) = (Throw circular, submitted)
  /\ app_workouts submitted = VArr [first_run]
  /\ entries submitted = [first_entry]
  /\ localStorage_workouts submitted = None.
Proof.
  split; last by repeat split.
  refine (proj1 (proj1 save_failure_keeps_the_changes
                   (set_form run5 clicked) clk0
                   (mkLMap (51.5, 0.25)%float 13 [] true) [] 51.5%float 0.25%float
                   _) eq_refl eq_refl).
  split; reflexivity.
Defined.

(** ** C6: identifiers *)

(** As stated, C6 fails: two records created in the same millisecond have
    the same identifier. *)
Lemma same_millisecond_same_id :
  exists a b,
    app_workouts submitted_twice = VArr [a; b]
    /\ get a "id" = Ret (VStr "9461800123")
    /\ get b "id" = Ret (VStr "9461800123")
    /\ get a "marker" = Ret (VMarker 0)
    /\ get b "marker" = Ret (VMarker 2).
Proof. eexists _, _. repeat split; reflexivity. Qed.

(** C6, as the code has it: the identifier of a record is the text of the
    last ten digits of the clock when it is built; two records built at
    clock readings of at least ten digits have the same identifier exactly
    when the readings agree modulo 10^10, so readings that differ by less
    than 10^10 milliseconds give different identifiers; and no handler
    writes the identifier of a record in the store: [_loadMap] keeps the
    identifiers, [_newWorkout] keeps the records and adds at most one,
    [_removeWorkout] keeps the records but at most one. *)
Theorem identifiers_follow_the_clock :
  (forall clk coords d t x,
     (let* r := Running clk coords (VNum d) (VNum t) (VNum x) in get r "id")
     = Ret (VStr (new_id clk))
     /\ (let* r := Cycling clk coords (VNum d) (VNum t) (VNum x) in get r "id")
        = Ret (VStr (new_id clk)))
  /\ (forall clk1 clk2,
        (10 ^ 9 <= Date_now clk1)%N -> (10 ^ 9 <= Date_now clk2)%N ->
        (new_id clk1 = new_id clk2
         <-> (Date_now clk1 mod 10 ^ 10 = Date_now clk2 mod 10 ^ 10)%N)
        /\ ((Date_now clk1 < Date_now clk2)%N ->
            (Date_now clk2 - Date_now clk1 < 10 ^ 10)%N ->
            new_id clk1 ≠ new_id clk2))
  /\ (forall s position,
        column "id" (app_workouts (_loadMap position s).2)
        = column "id" (app_workouts s))
  /\ (forall s clk ws,
        app_workouts s = VArr ws ->
        exists extra, app_workouts (_newWorkout clk s).2 = VArr (ws ++ extra)
                      /\ length extra <= 1)
  /\ (forall s workoutEl ws,
        app_workouts s = VArr ws ->
        app_workouts (_removeWorkout workoutEl s).2 = VArr ws
        \/ exists index, index < length ws
             /\ app_workouts (_removeWorkout workoutEl s).2
                = VArr (delete index ws)).
Proof.
  split; first by intros; rw Running_eq Cycling_eq.
  split.
  { intros clk1 clk2 H1 H2. split; first by apply new_id_eq_iff.
    intros Hlt Hwin Heq. apply new_id_eq_iff in Heq; try done.
    by apply (mod_window _ _ Hlt Hwin). }
  split; first by intros s position; apply (loadMap_column "id").
  split; first apply newWorkout_appends.
  apply removeWorkout_deletes.
Qed.

Lemma identifiers_follow_the_clock_witness :
  new_id clk0 ≠ new_id clk1.
Proof.
  refine (proj2 (proj1 (proj2 identifiers_follow_the_clock) clk0 clk1 _ _) _ _);
    vm_compute; congruence.
Defined.

(** ** C7: deleting what is not there *)

(** C7: when no record of the store has the identifier of the entry,
    [_findWorkout] finds nothing and [_removeWorkout] returns at once:
    the store and all the rest of the state are as they were. *)
Theorem removeWorkout_not_found (s : State) (el : Li) (ws : list value)
    (Hws : app_workouts s = VArr ws)
    (Habsent : Forall (fun w => exists wid, get w "id" = Ret wid
                 /\ strict_equals_string wid (dataset_id el) = false) ws) :
  _findWorkout el s = (Ret None, s)
  /\ _removeWorkout (Some el) s = (Ret tt, s).
Proof.
  assert (_findWorkout el s = (Ret None, s)) as Hf.
  { rw (findWorkout_eq el s ws Hws). by rw find_id_absent. }
  split; first done.
  unfold _removeWorkout, bind. by rw Hf.
Qed.

Lemma removeWorkout_not_found_witness :
  _removeWorkout (Some stray_entry) submitted = (Ret tt, submitted).
Proof.
  refine (proj2 (removeWorkout_not_found submitted stray_entry [first_run]
                   eq_refl _)).
  constructor; last constructor.
  exists (VStr "9461800123"). split; reflexivity.
Defined.

(** ** C8: the metric calculators *)

Section Calculators.

Variables (p : proto) (fs : list (string * value)) (d t : float).
Hypothesis Hd : lookup_prop "distance" fs = Some (VNum d).
Hypothesis Ht : lookup_prop "duration" fs = Some (VNum t).

Lemma calcPace_eq :
  calcPace (VObj p fs)
  = Ret (VObj p (assign_prop "pace" (VNum (t / d)) fs), VNum (t / d)).
Proof.
  unfold calcPace. simpl. rw Hd Ht. simpl.
  by rw lookup_assign_eq.
Qed.

Lemma calcSpeed_eq :
  calcSpeed (VObj p fs)
  = Ret (VObj p (assign_prop "speed" (VNum (d / (t / 60))) fs),
         VNum (d / (t / 60))).
Proof.
  unfold calcSpeed. simpl. rw Hd Ht. simpl.
  by rw lookup_assign_eq.
Qed.

End Calculators.

(** As stated, C8 fails on the purity of the calculators: inside the
    constructor of [Running] the receiver has no [pace] before the call of
    [calcPace] and has one after it. *)
Lemma calcPace_has_side_effect :
  exists this,
    calcPace (Workout RunningProto clk0 VNull (VNum 5) (VNum 25))
      = Ret (this, VNum 5)
    /\ get (Workout RunningProto clk0 VNull (VNum 5) (VNum 25)) "pace"
       = Ret VUndefined
    /\ get this "pace" = Ret (VNum 5).
Proof. eexists. split; [reflexivity | split; reflexivity]. Qed.

(** C8, as the code has it: on a receiver whose distance is the number [d]
    and whose duration is the number [t], [calcPace] returns the double
    [t / d] and [calcSpeed] the double [d / (t / 60)], not rounded; each
    stores what it returns in the receiver ([pace], [speed]) and leaves every
    other property as it was, so that a second call changes nothing. *)
Theorem calculators_exact_and_store (p : proto) (fs : list (string * value))
    (d t : float)
    (Hd : lookup_prop "distance" fs = Some (VNum d))
    (Ht : lookup_prop "duration" fs = Some (VNum t)) :
  (exists this,
      calcPace (VObj p fs) = Ret (this, VNum (t / d))
      /\ get this "pace" = Ret (VNum (t / d))
      /\ (forall k, k ≠ "pace" -> get this k = get (VObj p fs) k)
      /\ calcPace this = Ret (this, VNum (t / d)))
  /\ (exists this,
      calcSpeed (VObj p fs) = Ret (this, VNum (d / (t / 60)))
      /\ get this "speed" = Ret (VNum (d / (t / 60)))
      /\ (forall k, k ≠ "speed" -> get this k = get (VObj p fs) k)
      /\ calcSpeed this = Ret (this, VNum (d / (t / 60)))).
Proof.
  split.
  - eexists. split; first by apply calcPace_eq.
    split; first by rw /= lookup_assign_eq.
    split; first by intros k Hk; rw /= lookup_assign_ne.
    rw (calcPace_eq _ _ d t); rw ?lookup_assign_ne //.
    by rw (assign_lookup_same "pace") ?lookup_assign_eq.
  - eexists. split; first by apply calcSpeed_eq.
    split; first by rw /= lookup_assign_eq.
    split; first by intros k Hk; rw /= lookup_assign_ne.
    rw (calcSpeed_eq _ _ d t); rw ?lookup_assign_ne //.
    by rw (assign_lookup_same "speed") ?lookup_assign_eq.
Qed.

Lemma calculators_exact_and_store_witness :
  (exists this,
      calcPace (Workout RunningProto clk0 VNull (VNum 5) (VNum 25))
        = Ret (this, VNum 5)
      /\ get this "pace" = Ret (VNum 5)).
Proof.
  destruct (calculators_exact_and_store RunningProto
              [("date", VDate (new_Date clk0));
               ("id", VStr (slice (-10) (decimal (Date_now clk0) +:+ "")));
               ("marker", VUndefined); ("coords", VNull);
               ("distance", VNum 5); ("duration", VNum 25)] 5 25
              eq_refl eq_refl) as [[this (H1 & H2 & _)] _].
  exists this. split; [exact H1 | exact H2].
Defined.

(** ** C9: the description *)

(** The kind with its first letter in upper case. *)
Definition capitalized (kind : string) : string :=
  match kind with
  | "" => ""
  | String c rest => String (toUpperCase c) rest
  end.

(** The English names of the twelve months, by the index 0 to 11 that
    [getMonth] gives, written out apart from the table of the script. *)
Definition monthName (month : nat) : string :=
  match month with
  | 0 => "January"
  | 1 => "February"
  | 2 => "March"
  | 3 => "April"
  | 4 => "May"
  | 5 => "June"
  | 6 => "July"
  | 7 => "August"
  | 8 => "September"
  | 9 => "October"
  | 10 => "November"
  | 11 => "December"
  | _ => ""
  end.

(** The description in the words of the specification: the capitalized
    kind, [" on "], the name of the month and the day of the month. *)
Definition formatDescription (kind : string) (createdAt : Date) : string :=
  capitalized kind +:+ " on " +:+ monthName (getMonth createdAt)
    +:+ " " +:+ decimal (N.of_nat (getDate createdAt)).

(** The table of [_setDescription] holds these names, in this order. *)
Lemma months_lookup m :
  m < 12 -> default "undefined" (months !! m) = monthName m.
Proof. intros H. do 12 (destruct m as [|m]; first done). lia. Qed.

Lemma label_format date :
  getMonth date < 12 ->
  label "Running" date = formatDescription "running" date
  /\ label "Cycling" date = formatDescription "cycling" date.
Proof. intros H. unfold label, formatDescription. by rw months_lookup. Qed.

(** C9: for a creation time whose month is one of the twelve, the
    constructors of [Running] and [Cycling] set [description] to the
    capitalized kind, [" on "], the English name of the month and the day of
    the month; on March 3 this is ["Running on March 3"] and
    ["Cycling on March 3"].  Nothing writes it afterwards: [_loadMap] keeps
    the descriptions of the store, [_newWorkout] and [_removeWorkout] keep the
    records they do not add or take out, and a record that is saved and
    loaded comes back with the same description. *)
Theorem description_format (clk : Clock) (coords : value) (d t x : float)
    (Hmonth : getMonth (new_Date clk) < 12) :
  (let* r := Running clk coords (VNum d) (VNum t) (VNum x) in
   get r "description")
  = Ret (VStr (formatDescription "running" (new_Date clk)))
  /\ (let* r := Cycling clk coords (VNum d) (VNum t) (VNum x) in
      get r "description")
     = Ret (VStr (formatDescription "cycling" (new_Date clk)))
  /\ (getMonth (new_Date clk) = 2 -> getDate (new_Date clk) = 3 ->
      formatDescription "running" (new_Date clk) = "Running on March 3"
      /\ formatDescription "cycling" (new_Date clk) = "Cycling on March 3")
  /\ (forall s position,
        column "description" (app_workouts (_loadMap position s).2)
        = column "description" (app_workouts s))
  /\ (forall s clk' ws,
        app_workouts s = VArr ws ->
        exists extra, app_workouts (_newWorkout clk' s).2 = VArr (ws ++ extra)
                      /\ length extra <= 1)
  /\ (forall s workoutEl ws,
        app_workouts s = VArr ws ->
        app_workouts (_removeWorkout workoutEl s).2 = VArr ws
        \/ exists index, index < length ws
             /\ app_workouts (_removeWorkout workoutEl s).2
                = VArr (delete index ws))
  /\ (forall c, get (reloaded c) "description" = get (built c) "description").
Proof.
  destruct (label_format (new_Date clk) Hmonth) as [Hr Hc].
  split; first by rw Running_eq /= Hr.
  split; first by rw Cycling_eq /= Hc.
  split.
  { intros Hm Hd. unfold formatDescription. by rw Hm Hd. }
  split; first by intros s position; apply (loadMap_column "description").
  split; first apply newWorkout_appends.
  split; first apply removeWorkout_deletes.
  by intros [].
Qed.

Lemma description_format_witness :
  (let* r := Running clk0 (VArr [VNum 51.5; VNum 0.25]) (VNum 5) (VNum 25) (VNum 178) in
   get r "description")
  = Ret (VStr "Running on March 3").
Proof.
  refine (proj1 (description_format clk0 (VArr [VNum 51.5; VNum 0.25]) 5 25 178 _)).
  vm_compute. lia.
Defined.

(** ** C10: deleting a record that has no marker *)

(** As stated, C10 fails on the list: the record loaded from local storage
    is deleted before the map is there, and when [_removeWorkout] fails on
    the marker the entry has already left the list. *)
Lemma delete_without_marker_clears_the_entry :
  entries restored = [restored_entry]
  /\ (_removeWorkout (Some restored_entry) restored).1
     = Throw (TypeError "Cannot read properties of undefined (reading 'remove')")
  /\ entries (_removeWorkout (Some restored_entry) restored).2 = []
  /\ app_workouts (_removeWorkout (Some restored_entry) restored).2 = VArr []
  /\ localStorage_workouts (_removeWorkout (Some restored_entry) restored).2
     = Some (Json (JArr [saved_run])).
Proof. repeat split; reflexivity. Qed.

(** C10, as the code has it: when the record found for the entry has no
    marker, [_removeWorkout] takes the record out of the store and the
    entry out of the list and then fails on [workout.marker.remove()]; the map
    and local storage are as they were, so the saved text still holds the
    record.  Whenever [_removeWorkout] returns after it has found the record,
    the record had a marker. *)
Theorem removeWorkout_without_marker (s : State) (el : Li) (ws : list value)
    (index : nat) (w : value)
    (Hws : app_workouts s = VArr ws)
    (Hfound : find_id (dataset_id el) 0 ws = Ret (Some (index, w))) :
  (get w "marker" = Ret VUndefined ->
     _removeWorkout (Some el) s
     = (Throw (TypeError "Cannot read properties of undefined (reading 'remove')"),
        set_entries (filter (fun li => li_node li ≠ li_node el) (entries s))
          (set_workouts (VArr (delete index ws)) s)))
  /\ (forall s', _removeWorkout (Some el) s = (Ret tt, s') ->
        exists h, get w "marker" = Ret (VMarker h)).
Proof.
  rw (removeWorkout_found s el ws index w Hws Hfound). split.
  - intros Hm. unfold bind, lift. by rw Hm.
  - intros s'. unfold bind at 1, lift.
    destruct (get w "marker") as [m| |]; try done.
    unfold bind. destruct m; try done. eauto.
Qed.

Lemma removeWorkout_without_marker_witness :
  _removeWorkout (Some restored_entry) restored
  = (Throw (TypeError "Cannot read properties of undefined (reading 'remove')"),
     set_entries [] (set_workouts (VArr []) restored)).
Proof.
  exact (proj1 (removeWorkout_without_marker restored restored_entry
                  [reloaded run0] 0 (reloaded run0) eq_refl eq_refl) eq_refl).
Defined.

(** * Further properties of the code *)

(** ** When the save succeeds *)

(** Whether a value holds a Leaflet marker, at any depth. *)
Fixpoint holds_marker (v : value) : bool :=
  match v with
  | VMarker _ => true
  | VArr xs =>
      (fix any (xs : list value) : bool :=
         match xs with
         | [] => false
         | x :: r => holds_marker x || any r
         end) xs
  | VObj _ fs =>
      (fix any (fs : list (string * value)) : bool :=
         match fs with
         | [] => false
         | (_, x) :: r => holds_marker x || any r
         end) fs
  | _ => false
  end.

Lemma serialize_marker_free v :
  if holds_marker v then serialize v = Throw circular
  else exists j, serialize v = Ret j.
Proof.
  induction v as [| | | | | | |xs IH|p fs IH] using value_induction;
    try (simpl; by eexists); try done.
  - change (holds_marker (VArr xs))
      with ((fix any (xs : list value) : bool :=
               match xs with
               | [] => false
               | x :: r => holds_marker x || any r
               end) xs).
    rw serialize_arr.
    induction IH as [|x xs Hx _ IHxs]; first by eexists.
    rw serialize_elements_cons.
    destruct (holds_marker x); first by rw Hx.
    destruct Hx as [j ->]. simpl.
    destruct ((fix any (xs : list value) : bool := _) xs).
    + destruct (serialize_elements xs) as [js| |]; by try discriminate IHxs.
    + destruct IHxs as [j' Hj'].
      destruct (serialize_elements xs) as [js| |]; try discriminate Hj'.
      by eexists.
  - change (holds_marker (VObj p fs))
      with ((fix any (fs : list (string * value)) : bool :=
               match fs with
               | [] => false
               | (_, x) :: r => holds_marker x || any r
               end) fs).
    rw serialize_obj.
    induction IH as [|[k x] fs Hx _ IHfs]; first by eexists.
    rw serialize_properties_cons. simpl in Hx.
    destruct (holds_marker x); first by rw Hx.
    destruct Hx as [j ->]. simpl.
    destruct ((fix any (fs : list (string * value)) : bool := _) fs).
    + destruct (serialize_properties fs) as [js| |]; by try discriminate IHfs.
    + destruct IHfs as [j' Hj'].
      destruct (serialize_properties fs) as [js| |]; try discriminate Hj'.
      by eexists.
Qed.

(** X1: [_setLocalStorage] saves exactly when nothing in the store holds a
    marker.  With a marker somewhere it ends in the [TypeError] of
    [JSON.stringify] and writes nothing; otherwise it returns, local storage
    holds the text of the store, and nothing else has changed. *)
Theorem setLocalStorage_saves_iff_marker_free (s : State) :
  if holds_marker (app_workouts s)
  then _setLocalStorage s = (Throw circular, s)
  else exists j,
      serialize (app_workouts s) = Ret j
      /\ _setLocalStorage s
         = (Ret tt,
            set_localStorage
              (Some (default (Malformed "undefined") (option_map Json j))) s).
Proof.
  pose proof (serialize_marker_free (app_workouts s)) as H.
  destruct (holds_marker (app_workouts s)).
  - apply setLocalStorage_throws. unfold JSON_stringify. by rw H.
  - destruct H as [j Hj]. exists j. split; first done.
    unfold _setLocalStorage, JSON_stringify, bind, read, lift, update.
    by rw Hj.
Qed.

(** ** Deleting the record that was found *)

(** The state once the record at [index], its entry and its marker are
    taken away. *)
Definition removed (s : State) (el : Li) (ws : list value) (index h : nat)
  : State :=
  set_layers (filter (fun l => layer_marker l ≠ h))
    (set_entries (filter (fun li => li_node li ≠ li_node el) (entries s))
       (set_workouts (VArr (delete index ws)) s)).

(** X2: when the record found for the entry has a marker, [_removeWorkout]
    takes the record out of the store, the entry out of the list and the
    marker off the map, and then saves: it returns, with the text of the
    remaining records in local storage, exactly when none of the remaining
    records holds a marker, and ends in the [TypeError] of the save
    otherwise.  In particular the only record of a store is deleted for good
    and leaves the text of the empty array. *)
Theorem removeWorkout_completes_iff_marker_free (s : State) (el : Li)
    (ws : list value) (index : nat) (w : value) (h : nat)
    (Hws : app_workouts s = VArr ws)
    (Hfound : find_id (dataset_id el) 0 ws = Ret (Some (index, w)))
    (Hmarker : get w "marker" = Ret (VMarker h)) :
  (if holds_marker (VArr (delete index ws))
   then _removeWorkout (Some el) s = (Throw circular, removed s el ws index h)
   else exists js,
       serialize_elements (delete index ws) = Ret js
       /\ _removeWorkout (Some el) s
          = (Ret tt,
             set_localStorage (Some (Json (JArr js))) (removed s el ws index h)))
  /\ (length ws = 1 ->
      _removeWorkout (Some el) s
      = (Ret tt,
         set_localStorage (Some (Json (JArr []))) (removed s el ws index h))).
Proof.
  assert (app_workouts (removed s el ws index h) = VArr (delete index ws))
    as Hstore by by rw /removed set_layers_workouts.
  assert (_removeWorkout (Some el) s = _setLocalStorage (removed s el ws index h))
    as ->.
  { rw (removeWorkout_found s el ws index w Hws Hfound).
    unfold bind at 1, lift. rw Hmarker. by unfold bind, marker_remove, update. }
  pose proof (serialize_marker_free (VArr (delete index ws))) as H.
  rw serialize_arr in H. split.
  - destruct (holds_marker (VArr (delete index ws))).
    + apply setLocalStorage_throws. rw Hstore /JSON_stringify serialize_arr.
      destruct (serialize_elements (delete index ws)) as [js| |]; try done.
      simpl in H. by injection H as <-.
    + destruct H as [j Hj].
      destruct (serialize_elements (delete index ws)) as [js| |] eqn:Hjs;
        try done.
      exists js. split; first done. apply setLocalStorage_saves.
      by rw Hstore /JSON_stringify serialize_arr Hjs.
  - intros Hlen.
    apply find_id_found in Hfound as (_ & Hw & _).
    destruct ws as [|w0 [|? ?]]; try done.
    destruct index as [|index]; last done.
    apply setLocalStorage_saves. by rw Hstore.
Qed.

Lemma removeWorkout_completes_iff_marker_free_witness :
  _removeWorkout (Some first_entry) submitted
  = (Ret tt,
     set_localStorage (Some (Json (JArr [])))
       (removed submitted first_entry [first_run] 0 0)).
Proof.
  exact (proj2 (removeWorkout_completes_iff_marker_free submitted first_entry
                  [first_run] 0 first_run 0 eq_refl eq_refl eq_refl) eq_refl).
Defined.

(** ** Which record an entry stands for *)

(** The record [w] is not the one an entry with identifier [id] stands for:
    its [id] can be read and is another one. *)
Definition other_id (id : string) (w : value) : Prop :=
  exists wid, get w "id" = Ret wid /\ strict_equals_string wid id = false.

Definition shift (i : nat) (o : outcome (option (nat * value)))
  : outcome (option (nat * value)) :=
  let* r := o in Ret (option_map (fun jw => (i + jw.1, jw.2)) r).

Lemma find_id_plus id ws : forall i k,
  find_id id (i + k) ws = shift i (find_id id k ws).
Proof.
  induction ws as [|x ws IH]; intros i k; first done. simpl.
  destruct (get x "id") as [wid| |]; try done. simpl.
  destruct (strict_equals_string wid id); first done.
  by rw -IH Nat.add_succ_r.
Qed.

Lemma find_id_first id ws index w :
  find_id id 0 ws = Ret (Some (index, w))
  <-> ws !! index = Some w
      /\ get w "id" = Ret (VStr id)
      /\ Forall (other_id id) (take index ws).
Proof.
  revert index. induction ws as [|x ws IH]; intros index.
  - split; first done. by intros [? _].
  - simpl. rw (find_id_plus id ws 1 0). split.
    + destruct (get x "id") as [wid| |] eqn:Hx; try done. simpl.
      destruct (strict_equals_string wid id) eqn:E.
      * intros [= <- <-]. split; first done. split; last by constructor.
        destruct wid; try done. simpl in E.
        by apply String.eqb_eq in E as ->.
      * destruct (find_id id 0 ws) as [[[j w']|]| |] eqn:H0 in |- *; try done.
        simpl. intros [= <- <-].
        apply IH in H0 as (Hw & Hid & Hbefore).
        split; first done. split; first done.
        constructor; last done. by exists wid.
    + intros (Hw & Hid & Hbefore). destruct index as [|index].
      * simpl in Hw. injection Hw as ->. by rw Hid /= String.eqb_refl.
      * simpl in Hw, Hbefore.
        apply Forall_cons in Hbefore as [(wid & Hx & Hne) Hrest].
        by rw Hx /= Hne (proj2 (IH index)).
Qed.

(** X3: an entry stands for the first record of the store whose [id] is the
    [data-id] of the entry, and [_removeWorkout] takes that record out of
    the store: the records before it, whose identifiers are others, and the
    records after it stay, in order. *)
Theorem removeWorkout_takes_the_first_match (s : State) (el : Li)
    (ws : list value) (index : nat) (w : value)
    (Hws : app_workouts s = VArr ws)
    (Hw : ws !! index = Some w)
    (Hid : get w "id" = Ret (VStr (dataset_id el)))
    (Hbefore : Forall (other_id (dataset_id el)) (take index ws)) :
  _findWorkout el s = (Ret (Some (index, w)), s)
  /\ app_workouts (_removeWorkout (Some el) s).2
     = VArr (take index ws ++ drop (S index) ws).
Proof.
  assert (find_id (dataset_id el) 0 ws = Ret (Some (index, w))) as Hf
    by by apply find_id_first.
  split; first by rw (findWorkout_eq el s ws Hws) Hf.
  rw (removeWorkout_found s el ws index w Hws Hf).
  rw (bind_tail app_workouts).
  - simpl. by rw delete_take_drop.
  - intros m. apply preserves_bind; first apply marker_remove_workouts.
    intros _. by apply setLocalStorage_frame.
Qed.

(** Two records with one identifier: the entry of the second stands for the
    first. *)
Definition first_of_two : value := element 0 (app_workouts submitted_twice).
Definition second_of_two : value := element 1 (app_workouts submitted_twice).
Definition second_entry : Li :=
  default (mkLi 0 VUndefined "" VUndefined [] false)
    (head (entries submitted_twice)).

Lemma removeWorkout_takes_the_first_match_witness :
  _findWorkout second_entry submitted_twice
  = (Ret (Some (0, first_of_two)), submitted_twice)
  /\ app_workouts (_removeWorkout (Some second_entry) submitted_twice).2
     = VArr [second_of_two].
Proof.
  exact (removeWorkout_takes_the_first_match submitted_twice second_entry
           [first_of_two; second_of_two] 0 first_of_two
           eq_refl eq_refl eq_refl (List.Forall_nil _)).
Defined.

(** ** A type that is neither running nor cycling *)

Lemma find_id_app_undefined id ws :
  Forall (other_id id) ws ->
  find_id id 0 (ws ++ [VUndefined])
  = Throw (TypeError "Cannot read properties of undefined (reading 'id')").
Proof.
  generalize 0. intros n H. revert n.
  induction H as [|w ws (wid & Hw & Hne) _ IH]; intros n; first done.
  simpl. by rw Hw /= Hne.
Qed.

(** X4: [_newWorkout] checks the form only under [type === 'running'] and
    [type === 'cycling'].  With any other type, and the click known, it
    checks nothing, appends [undefined] to the store and stops on
    [workout.coords] in [_renderWorkoutMarker]: no entry, no marker, no
    save.  From then on, looking for an entry whose record is not found
    before that place stops on [w.id]. *)
Theorem newWorkout_unknown_type (s : State) (clk : Clock)
    (latlng : float * float) (ws : list value)
    (Hclick : app_mapEvent s = Some latlng)
    (Hrun : inputType (form s) ≠ "running")
    (Hcyc : inputType (form s) ≠ "cycling")
    (Hws : app_workouts s = VArr ws) :
  _newWorkout clk s
  = (Throw (TypeError "Cannot read properties of undefined (reading 'coords')"),
     set_workouts (VArr (ws ++ [VUndefined])) s)
  /\ (forall el, Forall (other_id (dataset_id el)) ws ->
        _findWorkout el (_newWorkout clk s).2
        = (Throw (TypeError "Cannot read properties of undefined (reading 'id')"),
           (_newWorkout clk s).2)).
Proof.
  destruct latlng as [lat lng].
  assert (_newWorkout clk s
          = (Throw (TypeError "Cannot read properties of undefined (reading 'coords')"),
             set_workouts (VArr (ws ++ [VUndefined])) s)) as ->.
  { rw (newWorkout_other s clk lat lng Hclick Hrun Hcyc).
    rw (after_build_eq VUndefined s ws Hws).
    set (s1 := set_workouts (VArr (ws ++ [VUndefined])) s).
    assert (_renderWorkoutMarker (length ws) s1
            = (Throw (TypeError "Cannot read properties of undefined (reading 'coords')"),
               s1)) as Hmarker.
    { unfold _renderWorkoutMarker.
      rw (bind_eq _ _ _ _ _ (workout_at_eq _ _)).
      unfold element, s1. simpl app_workouts. cbv iota.
      by rw list_lookup_middle. }
    unfold bind at 1. by rw Hmarker. }
  split; first done. intros el Hel.
  rw (findWorkout_eq el _ (ws ++ [VUndefined])) //.
  by rw find_id_app_undefined.
Qed.

Definition swim : Form :=
  mkForm "swimming" (Typed (-1)) (Typed nan) Empty Empty.

Lemma newWorkout_unknown_type_witness :
  _newWorkout clk0 (set_form swim clicked)
  = (Throw (TypeError "Cannot read properties of undefined (reading 'coords')"),
     set_workouts (VArr [VUndefined]) (set_form swim clicked)).
Proof.
  refine (proj1 (newWorkout_unknown_type (set_form swim clicked) clk0
                   (51.5, 0.25)%float [] eq_refl _ _ eq_refl));
    vm_compute; congruence.
Defined.

(** ** Where and when a record is created *)

Lemma showForm_eq latlng s :
  _showForm latlng s = (Ret tt, set_form_hidden false (set_mapEvent (Some latlng) s)).
Proof. reflexivity. Qed.

(** X5: a click on the map shows the form and keeps what is typed in it,
    and the record that a valid form then adds lies at the place of that
    click: its [coords] are the latitude and the longitude of the last
    click, its [id] and its [date] are read from the clock of the
    submission. *)
Theorem record_at_the_last_click (s : State) (clk : Clock) (lat lng : float)
    (ws : list value)
    (Hws : app_workouts s = VArr ws)
    (Hvalid :
       inputType (form s) = "running"
       /\ finite_positive (unary_plus (inputDistance (form s)))
          && finite_positive (unary_plus (inputDuration (form s)))
          && finite_positive (unary_plus (inputCadence (form s))) = true
       \/ inputType (form s) = "cycling"
       /\ finite_positive (unary_plus (inputDistance (form s)))
          && finite_positive (unary_plus (inputDuration (form s)))
          && isFinite (unary_plus (inputElevation (form s))) = true) :
  form (_showForm (lat, lng) s).2 = form s
  /\ form_hidden (_showForm (lat, lng) s).2 = false
  /\ exists w,
       app_workouts (_newWorkout clk (_showForm (lat, lng) s).2).2
       = VArr (ws ++ [w])
       /\ get w "coords" = Ret (VArr [VNum lat; VNum lng])
       /\ get w "id" = Ret (VStr (new_id clk))
       /\ get w "date" = Ret (VDate (new_Date clk)).
Proof.
  rw showForm_eq. split; first done. split; first done.
  set (s1 := set_form_hidden false (set_mapEvent (Some (lat, lng)) s)).
  assert (app_workouts s1 = VArr ws) as Hws1 by done.
  assert (app_mapEvent s1 = Some (lat, lng)) as Hclick by done.
  change ((Ret (), s1).2) with s1.
  destruct Hvalid as [[Hty Hv]|[Hty Hv]].
  - rw (newWorkout_running s1 clk lat lng Hclick Hty). cbv zeta.
    rw running_check. change (form s1) with (form s). rw Hv Running_eq.
    cbn [negb].
    destruct (after_build_workouts
                (VObj RunningProto
                   [("date", VDate (new_Date clk)); ("id", VStr (new_id clk));
                    ("marker", VUndefined);
                    ("coords", VArr [VNum lat; VNum lng]);
                    ("distance", VNum (unary_plus (inputDistance (form s))));
                    ("duration", VNum (unary_plus (inputDuration (form s))));
                    ("type", VStr "running");
                    ("cadence", VNum (unary_plus (inputCadence (form s))));
                    ("pace", VNum (unary_plus (inputDuration (form s))
                                   / unary_plus (inputDistance (form s))));
                    ("description", VStr (label "Running" (new_Date clk)))])
                s1 ws Hws1) as (w & Hw & Hr).
    exists w. split; first done.
    destruct Hr as [->|[h Hset]]; first done.
    by rw !(get_set_ne _ _ _ _ _ Hset).
  - rw (newWorkout_cycling s1 clk lat lng Hclick Hty). cbv zeta.
    rw cycling_check. change (form s1) with (form s). rw Hv Cycling_eq.
    cbn [negb].
    destruct (after_build_workouts
                (VObj CyclingProto
                   [("date", VDate (new_Date clk)); ("id", VStr (new_id clk));
                    ("marker", VUndefined);
                    ("coords", VArr [VNum lat; VNum lng]);
                    ("distance", VNum (unary_plus (inputDistance (form s))));
                    ("duration", VNum (unary_plus (inputDuration (form s))));
                    ("type", VStr "cycling");
                    ("elevationGain", VNum (unary_plus (inputElevation (form s))));
                    ("speed", VNum (unary_plus (inputDistance (form s))
                                    / (unary_plus (inputDuration (form s)) / 60)));
                    ("description", VStr (label "Cycling" (new_Date clk)))])
                s1 ws Hws1) as (w & Hw & Hr).
    exists w. split; first done.
    destruct Hr as [->|[h Hset]]; first done.
    by rw !(get_set_ne _ _ _ _ _ Hset).
Qed.

Lemma record_at_the_last_click_witness :
  exists w,
    app_workouts (_newWorkout clk0
                    (_showForm (48.25, 11.5)%float (set_form ride20 located)).2).2
    = VArr [w]
    /\ get w "coords" = Ret (VArr [VNum 48.25; VNum 11.5]).
Proof.
  destruct (record_at_the_last_click (set_form ride20 located) clk0
              48.25 11.5 [] eq_refl (or_intror (conj eq_refl eq_refl)))
    as (_ & _ & w & Hw & Hc & _).
  exists w. split; [exact Hw | exact Hc].
Defined.

(** ** Submitting again *)

Lemma hideForm_eq s :
  _hideForm s
  = (Ret tt,
     set_form_hidden true
       (set_form (mkForm (inputType (form s)) Empty Empty Empty Empty) s)).
Proof. reflexivity. Qed.

(** X6: [_hideForm] empties the four number fields and keeps the type, so
    that a running or cycling form submitted again before anything is typed
    reads 0 for the distance and is answered by the alert: the store, the
    list, the map and local storage stay as [_hideForm] left them. *)
Theorem submit_after_hideForm_is_rejected (s : State) (clk : Clock)
    (latlng : float * float)
    (Hclick : app_mapEvent s = Some latlng)
    (Htype : inputType (form s) = "running" \/ inputType (form s) = "cycling") :
  inputType (form (_hideForm s).2) = inputType (form s)
  /\ _newWorkout clk (_hideForm s).2
     = (Ret tt,
        set_alerts (alerts s ++ [invalid_message]) (_hideForm s).2).
Proof.
  rw hideForm_eq. split; first done. destruct latlng as [lat lng].
  set (s1 := set_form_hidden true _).
  change ((Ret (), s1).2) with s1.
  assert (app_mapEvent s1 = Some (lat, lng)) as Hclick1 by done.
  destruct Htype as [Hty|Hty].
  - by rw (newWorkout_running s1 clk lat lng Hclick1 Hty).
  - by rw (newWorkout_cycling s1 clk lat lng Hclick1 Hty).
Qed.

Lemma submit_after_hideForm_is_rejected_witness :
  _newWorkout clk0 submitted
  = (Ret tt, set_alerts [invalid_message] submitted).
Proof.
  exact (proj2 (submit_after_hideForm_is_rejected submitted clk0
                  (51.5, 0.25)%float eq_refl (or_introl eq_refl))).
Defined.

(** ** Saving what was loaded *)

Lemma json_number_finite x : isFinite x = true -> isFinite (json_number x) = true.
Proof. unfold json_number. by destruct (PrimFloat.eqb x 0). Qed.

Lemma json_number_twice x : json_number (json_number x) = json_number x.
Proof.
  unfold json_number. destruct (PrimFloat.eqb x 0) eqn:E; first done.
  by rw E.
Qed.

Lemma serialize_renum x : serialize (renum x) = Ret (Some (jnum x)).
Proof.
  unfold renum, jnum. destruct (isFinite x) eqn:E; last done.
  by rw /= json_number_finite // json_number_twice.
Qed.

Lemma serialize_pair a b :
  serialize (VArr [a; b])
  = let* x := serialize a in
    let* y := serialize b in
    Ret (Some (JArr [default JNull x; default JNull y])).
Proof.
  rw serialize_arr !serialize_elements_cons.
  destruct (serialize a) as [[x|]| |]; try done; simpl;
    by destruct (serialize b) as [[y|]| |].
Qed.

Lemma serialize_reloaded c : serialize (reloaded c) = Ret (Some (saved c)).
Proof.
  destruct c; rw serialize_obj /reloaded /saved;
    by rw !serialize_properties_cons serialize_pair !serialize_renum.
Qed.

Lemma stringify_reloaded cs :
  JSON_stringify (VArr (reloaded <$> cs))
  = Ret (Some (Json (JArr (saved <$> cs)))).
Proof.
  unfold JSON_stringify. rw serialize_arr.
  assert (serialize_elements (reloaded <$> cs) = Ret (saved <$> cs)) as ->; last done.
  induction cs as [|c cs IH]; first done.
  by rw fmap_cons serialize_elements_cons serialize_reloaded /= IH.
Qed.

Lemma constructor_storage geolocation :
  preserves localStorage_workouts (constructor geolocation).
Proof.
  unfold constructor.
  apply preserves_bind; first by intros s; destruct geolocation.
  intros _. apply preserves_bind; last by intros _; apply preserves_update.
  unfold _getLocalStorage.
  apply preserves_bind; first apply preserves_read. intros item.
  apply preserves_bind; first apply preserves_lift. intros data.
  case_match; first apply preserves_ret.
  apply preserves_bind; first by apply preserves_update. intros _.
  apply preserves_bind; first apply workouts_array_frame. intros ws.
  apply preserves_forEach. intros w.
  unfold _renderWorkout, new_object. frame.
Qed.

(** X7: what the page loads from the text of saved records is saved again as
    that same text: the constructor leaves the stored text alone, the store
    it builds serializes to that text, and a save right after the load
    changes nothing. *)
Theorem reloaded_store_is_saved_unchanged (cs : list creation)
    (geolocation : bool) :
  app_workouts (load (Some (Json (JArr (saved <$> cs)))) geolocation).2
  = VArr (reloaded <$> cs)
  /\ localStorage_workouts (load (Some (Json (JArr (saved <$> cs)))) geolocation).2
     = Some (Json (JArr (saved <$> cs)))
  /\ JSON_stringify
       (app_workouts (load (Some (Json (JArr (saved <$> cs)))) geolocation).2)
     = Ret (Some (Json (JArr (saved <$> cs))))
  /\ _setLocalStorage (load (Some (Json (JArr (saved <$> cs)))) geolocation).2
     = (Ret tt, (load (Some (Json (JArr (saved <$> cs)))) geolocation).2).
Proof.
  assert (app_workouts (load (Some (Json (JArr (saved <$> cs)))) geolocation).2
          = VArr (reloaded <$> cs)) as Hload.
  { rw load_array. pose proof (parse_saved cs) as H. simpl in H.
    injection H as H. by rw H. }
  assert (localStorage_workouts
            (load (Some (Json (JArr (saved <$> cs)))) geolocation).2
          = Some (Json (JArr (saved <$> cs)))) as Hstored
    by (unfold load; by rw constructor_storage).
  split; first done. split; first done.
  split; first by rw Hload stringify_reloaded.
  rw (setLocalStorage_saves _ (Json (JArr (saved <$> cs))));
    last by rw Hload stringify_reloaded.
  f_equal. revert Hstored.
  destruct (load (Some (Json (JArr (saved <$> cs)))) geolocation).2; simpl.
  by intros ->.
Qed.

(** ** The list after a load *)

(** The pace of a running record, the speed of a cycling one. *)
Definition metric (c : creation) : float :=
  match c with
  | NewRunning _ _ _ d t _ => (t / d)%float
  | NewCycling _ _ _ d t _ => (d / (t / 60))%float
  end.

(** The list entry that a load builds for a saved record. *)
Definition listed (node : nat) (c : creation) : Li :=
  match c with
  | NewRunning clk _ _ d t x =>
      mkLi node (VStr "running") (new_id clk)
        (VStr (label "Running" (new_Date clk)))
        [Shown (renum d); Shown (renum t);
         Fixed1 (json_number (t / d)); Shown (renum x)] true
  | NewCycling clk _ _ d t x =>
      mkLi node (VStr "cycling") (new_id clk)
        (VStr (label "Cycling" (new_Date clk)))
        [Shown (renum d); Shown (renum t);
         Fixed1 (json_number (d / (t / 60))); Shown (renum x)] true
  end.

Lemma forEach_app {A} (xs ys : list A) body s :
  forEach (xs ++ ys) body s
  = match forEach xs body s with
    | (Ret _, s') => forEach ys body s'
    | r => r
    end.
Proof.
  revert s. induction xs as [|x xs IH]; intros s; first done.
  simpl. unfold bind.
  by destruct (body x s) as [[[]|e|] s'].
Qed.

Lemma renderWorkout_reloaded c s :
  isFinite (metric c) = true ->
  _renderWorkout (reloaded c) s
  = (Ret tt,
     set_entries (listed (fresh s) c :: entries s) (set_fresh (S (fresh s)) s)).
Proof.
  intros H. destruct c as [clk lat lng d t x|clk lat lng d t x]; simpl in H.
  - rw (renderWorkout_running s _ _ (new_id clk) (json_number (t / d))) //.
    by rw /= /renum H.
  - rw (renderWorkout_cycling s _ _ (new_id clk) (json_number (d / (t / 60)))) //.
    by rw /= /renum H.
Qed.

Lemma renderWorkout_reloaded_throws c :
  isFinite (metric c) = false ->
  exists msg, forall s,
    _renderWorkout (reloaded c) s = (Throw (TypeError msg), s).
Proof.
  intros H. eexists. intros s. destruct c; simpl in H; destruct s;
    unfold _renderWorkout, new_object, bind, lift, read, update, ret; simpl;
    by rw /renum H.
Qed.

(** The state with the entries [es] put before those of the list. *)
Definition hydrated (es : list Li) (s : State) : State :=
  set_entries (es ++ entries s) (set_fresh (fresh s + length es) s).

Lemma forEach_reloaded cs : forall s,
  Forall (fun c => isFinite (metric c) = true) cs ->
  forEach (reloaded <$> cs) _renderWorkout s
  = (Ret tt, hydrated (reverse (imap (fun i => listed (fresh s + i)) cs)) s).
Proof.
  induction cs as [|c cs IH]; intros s Hcs.
  - destruct s. unfold hydrated. simpl. by rw Nat.add_0_r.
  - apply Forall_cons in Hcs as [Hc Hcs].
    rw fmap_cons. simpl forEach.
    rw (bind_eq _ _ _ _ _ (renderWorkout_reloaded c s Hc)) IH //.
    f_equal. rw imap_cons reverse_cons. destruct s. unfold hydrated. simpl.
    rw Nat.add_0_r !length_app !length_reverse !length_imap -app_assoc /=.
    unfold set_entries, set_fresh. simpl. f_equal; last lia.
    f_equal. f_equal. apply imap_ext. intros i x _. simpl. f_equal. lia.
Qed.

Lemma getLocalStorage_saved cs s :
  localStorage_workouts s = Some (Json (JArr (saved <$> cs))) ->
  _getLocalStorage s
  = forEach (reloaded <$> cs) _renderWorkout
      (set_workouts (VArr (reloaded <$> cs)) s).
Proof.
  intros H. unfold _getLocalStorage.
  unfold bind at 1 2, read at 1, lift at 1. by rw H parse_saved.
Qed.

Lemma constructor_reloaded cs geolocation (k : M unit) :
  (let! _ := _getPosition geolocation in
   let! _ := _getLocalStorage in
   k) (page (Some (Json (JArr (saved <$> cs)))))
  = (let! _ := forEach (reloaded <$> cs) _renderWorkout in k)
      (mkState None None (VArr (reloaded <$> cs))
         (Some (Json (JArr (saved <$> cs))))
         (mkForm "running" Empty Empty Empty Empty) true [] [] false
         geolocation 0).
Proof.
  rw (bind_eq _ _ _ _ _ (getPosition_eq _ _)).
  unfold bind at 1.
  rw (getLocalStorage_saved cs); last by destruct geolocation.
  unfold bind. by destruct geolocation.
Qed.

(** X8: a load with the text of saved records whose pace or speed is a
    number completes: the store holds the records as plain objects, in the
    order of the text; the list has one entry for each, the last record
    first, each with the identifier of its record as [data-id], the metric
    for [toFixed] and a Delete button that is wired; the listeners of the
    form and of the list are attached, and no map exists yet. *)
Theorem stored_records_are_listed (cs : list creation) (geolocation : bool) :
  Forall (fun c => isFinite (metric c) = true) cs ->
  load (Some (Json (JArr (saved <$> cs)))) geolocation
  = (Ret tt,
     mkState None None (VArr (reloaded <$> cs))
       (Some (Json (JArr (saved <$> cs))))
       (mkForm "running" Empty Empty Empty Empty) true
       (reverse (imap listed cs)) [] true geolocation (length cs)).
Proof.
  intros Hcs. unfold load, constructor.
  rw constructor_reloaded.
  rw (bind_eq _ _ _ _ _ (forEach_reloaded cs _ Hcs)).
  unfold update, hydrated, set_listeners, set_entries, set_fresh. simpl.
  by rw app_nil_r length_reverse length_imap.
Qed.

Lemma stored_records_are_listed_witness :
  load (Some (Json (JArr (saved <$>
          [NewRunning clk0 51.5 0.25 5 25 178;
           NewCycling clk1 48.25 11.5 20 60 (-300)])))) true
  = (Ret tt,
     mkState None None
       (VArr (reloaded <$>
          [NewRunning clk0 51.5 0.25 5 25 178;
           NewCycling clk1 48.25 11.5 20 60 (-300)]))
       (Some (Json (JArr (saved <$>
          [NewRunning clk0 51.5 0.25 5 25 178;
           NewCycling clk1 48.25 11.5 20 60 (-300)]))))
       (mkForm "running" Empty Empty Empty Empty) true
       [listed 1 (NewCycling clk1 48.25 11.5 20 60 (-300));
        listed 0 (NewRunning clk0 51.5 0.25 5 25 178)]
       [] true true 2).
Proof.
  apply (stored_records_are_listed
           [NewRunning clk0 51.5 0.25 5 25 178;
            NewCycling clk1 48.25 11.5 20 60 (-300)] true).
  repeat constructor.
Defined.

(** X9: a load stops at the first saved record whose pace or speed is not a
    number (a pace that overflowed is saved as [null]): [toFixed] raises a
    [TypeError] that nothing catches.  The store already holds every record
    of the text, the list has the entries of the records before that one
    only, and the listeners of the form and of the list are not attached. *)
Theorem load_stops_at_a_record_without_metric (before after : list creation)
    (c : creation) (geolocation : bool) :
  Forall (fun c => isFinite (metric c) = true) before ->
  isFinite (metric c) = false ->
  exists msg,
    load (Some (Json (JArr (saved <$> before ++ c :: after)))) geolocation
    = (Throw (TypeError msg),
       mkState None None (VArr (reloaded <$> before ++ c :: after))
         (Some (Json (JArr (saved <$> before ++ c :: after))))
         (mkForm "running" Empty Empty Empty Empty) true
         (reverse (imap listed before)) [] false geolocation (length before)).
Proof.
  intros Hbefore Hc.
  destruct (renderWorkout_reloaded_throws c Hc) as [msg Hmsg].
  exists msg. unfold load, constructor.
  rw constructor_reloaded.
  unfold bind at 1. rw fmap_app forEach_app.
  rw (forEach_reloaded before _ Hbefore).
  unfold hydrated, set_entries, set_fresh. simpl.
  rw app_nil_r length_reverse length_imap.
  unfold bind at 1. by rw Hmsg -fmap_cons -fmap_app.
Qed.

Lemma load_stops_at_a_record_without_metric_witness :
  exists msg,
    load (Some (Json (JArr (saved <$>
            [NewRunning clk0 51.5 0.25 5 25 178]
            ++ NewRunning clk1 51.5 0.25 0x1p-1000 0x1p+1000 178
            :: [NewCycling clk1 48.25 11.5 20 60 (-300)])))) true
    = (Throw (TypeError msg),
       mkState None None
         (VArr (reloaded <$>
            [NewRunning clk0 51.5 0.25 5 25 178]
            ++ NewRunning clk1 51.5 0.25 0x1p-1000 0x1p+1000 178
            :: [NewCycling clk1 48.25 11.5 20 60 (-300)]))
         (Some (Json (JArr (saved <$>
            [NewRunning clk0 51.5 0.25 5 25 178]
            ++ NewRunning clk1 51.5 0.25 0x1p-1000 0x1p+1000 178
            :: [NewCycling clk1 48.25 11.5 20 60 (-300)]))))
         (mkForm "running" Empty Empty Empty Empty) true
         [listed 0 (NewRunning clk0 51.5 0.25 5 25 178)] [] false true 1).
Proof.
  apply (load_stops_at_a_record_without_metric
           [NewRunning clk0 51.5 0.25 5 25 178]
           [NewCycling clk1 48.25 11.5 20 60 (-300)]
           (NewRunning clk1 51.5 0.25 0x1p-1000 0x1p+1000 178) true).
  - repeat constructor.
  - reflexivity.
Defined.

(** ** The markers of the records that were loaded *)











(** ** A click on the list *)






(** ** Adding a record and deleting it again *)






(** ** The shape of an identifier *)

Definition is_digit (c : ascii) : Prop :=
  48 <= nat_of_ascii c <= 57.

Lemma digit_is_digit d : (d < 10)%N -> is_digit (digit d).
Proof.
  intros H. unfold is_digit, digit.
  assert (d = 0 \/ d = 1 \/ d = 2 \/ d = 3 \/ d = 4 \/ d = 5 \/ d = 6
          \/ d = 7 \/ d = 8 \/ d = 9)%N as Hd by lia.
  repeat (destruct Hd as [->|Hd]; first (vm_compute; lia)).
  subst. vm_compute. lia.
Qed.

Lemma low_digits_are_digits k : forall n, Forall is_digit (low_digits k n).
Proof.
  induction k as [|k IH]; intros n; first by constructor.
  simpl. constructor; last apply IH.
  apply digit_is_digit, N.mod_lt. lia.
Qed.

Lemma length_string_of_list_ascii l :
  String.length (string_of_list_ascii l) = length l.
Proof. induction l as [|a l IH]; first done. simpl. by rw IH. Qed.

(** X13: from 1970-01-12 on, the identifier of a new record is a text of
    exactly ten characters, each a decimal digit: the last ten digits of
    the clock, leading zeros included. *)
Theorem identifier_is_ten_digits (clk : Clock) :
  (10 ^ 9 <= Date_now clk)%N ->
  String.length (new_id clk) = 10
  /\ Forall is_digit (list_ascii_of_string (new_id clk))
  /\ list_ascii_of_string (new_id clk)
     = (fun i => digit ((Date_now clk / 10 ^ N.of_nat (9 - i)) mod 10)%N)
         <$> seq 0 10.
Proof.
  intros H. rw new_id_digits //.
  rw length_string_of_list_ascii list_ascii_of_string_of_list_ascii.
  split; first by rw length_rev length_low_digits.
  split.
  { apply List.Forall_rev, low_digits_are_digits. }
  simpl. rw !N.Div0.div_div. by rw N.div_1_r.
Qed.

Lemma identifier_is_ten_digits_witness :
  String.length (new_id (mkClock march3 1700000000123)) = 10
  /\ new_id (mkClock march3 1700000000123) = "0000000123".
Proof.
  split; last reflexivity.
  apply (identifier_is_ten_digits (mkClock march3 1700000000123)).
  vm_compute. discriminate.
Defined.

(** ** One entry at a time *)

